(** * GadjetHubUz: the request handlers of [app.py] over an explicit store

    The application is a set of Flask handlers over four SQLite tables and a
    signed session cookie.  Each handler is embedded as a function from the
    request and the current world (database and session) to an outcome (a
    response or a raised exception) and the next world.

    Conventions of the embedding:
    - a Python [str] is the list of its code points;
    - Python ints and SQLite INTEGERs are [Z]; an int taken from the URL
      and bound into a statement raises [OverflowError] when it does not fit
      the store's INTEGER; row ids are handed out from 1 upward by
      AUTOINCREMENT, whose ceiling at the largest INTEGER is not part of the
      model, and the key kept in the signed session is one read from the
      store;
    - a REAL is kept as the exact decimal that the text denotes, rounding to
      binary64 is not modelled;
    - CURRENT_TIMESTAMP is the time of the request, in seconds. *)

From Stdlib Require Import ZArith NArith Ascii String.
From stdpp Require Import gmap strings list sorting.

Open Scope Z_scope.

(** ** Python strings *)

Abbreviation char := N (only parsing).
Abbreviation str := (list N) (only parsing).

(** An ASCII literal of the source as a [str]. *)
Definition py (s : string) : str :=
  (λ a, N_of_ascii a) <$> list_ascii_of_string s.

(** [ch.isspace()] for a code point (Unicode 14 tables of CPython 3.11). *)
Definition isspace (c : char) : bool :=
  ((0x09 <=? c) && (c <=? 0x0D))%N || ((0x1C <=? c) && (c <=? 0x20))%N
  || (c =? 0x85)%N || (c =? 0xA0)%N || (c =? 0x1680)%N
  || ((0x2000 <=? c) && (c <=? 0x200A))%N
  || (c =? 0x2028)%N || (c =? 0x2029)%N || (c =? 0x202F)%N
  || (c =? 0x205F)%N || (c =? 0x3000)%N.

Fixpoint lstrip (s : str) : str :=
  match s with
  | c :: s' => if isspace c then lstrip s' else s
  | [] => []
  end.

Definition rstrip (s : str) : str := reverse (lstrip (reverse s)).

(** [s.strip()] *)
Definition strip (s : str) : str := rstrip (lstrip s).

(** Truth value of a [str]: non-empty. *)
Definition truthy (s : str) : bool :=
  match s with [] => false | _ :: _ => true end.

(** [s.encode()]: UTF-8.  Form values are decoded from UTF-8 by the
    framework, so they hold no surrogate code point, for which Python would
    raise; the encoder is written for the other code points. *)
Definition encode_char (c : char) : list Z :=
  let z := Z.of_N c in
  if z <? 0x80 then [z]
  else if z <? 0x800 then
    [Z.lor 0xC0 (Z.shiftr z 6); Z.lor 0x80 (Z.land z 0x3F)]
  else if z <? 0x10000 then
    [Z.lor 0xE0 (Z.shiftr z 12); Z.lor 0x80 (Z.land (Z.shiftr z 6) 0x3F);
     Z.lor 0x80 (Z.land z 0x3F)]
  else
    [Z.lor 0xF0 (Z.shiftr z 18); Z.lor 0x80 (Z.land (Z.shiftr z 12) 0x3F);
     Z.lor 0x80 (Z.land (Z.shiftr z 6) 0x3F); Z.lor 0x80 (Z.land z 0x3F)].

Definition encode (s : str) : list Z := s ≫= encode_char.

(** ** [hashlib.sha256] (FIPS 180-4) on 32-bit words held in [Z] *)

Module hashlib.

Definition w32 (x : Z) : Z := x mod 2 ^ 32.
Definition add32 (x y : Z) : Z := w32 (x + y).
Definition rotr (n x : Z) : Z :=
  Z.lor (Z.shiftr x n) (w32 (Z.shiftl x (32 - n))).
Definition not32 (x : Z) : Z := Z.lxor x 0xFFFFFFFF.

Definition Ch (x y z : Z) : Z := Z.lxor (Z.land x y) (Z.land (not32 x) z).
Definition Maj (x y z : Z) : Z :=
  Z.lxor (Z.lxor (Z.land x y) (Z.land x z)) (Z.land y z).
Definition bsig0 (x : Z) : Z :=
  Z.lxor (Z.lxor (rotr 2 x) (rotr 13 x)) (rotr 22 x).
Definition bsig1 (x : Z) : Z :=
  Z.lxor (Z.lxor (rotr 6 x) (rotr 11 x)) (rotr 25 x).
Definition ssig0 (x : Z) : Z :=
  Z.lxor (Z.lxor (rotr 7 x) (rotr 18 x)) (Z.shiftr x 3).
Definition ssig1 (x : Z) : Z :=
  Z.lxor (Z.lxor (rotr 17 x) (rotr 19 x)) (Z.shiftr x 10).

(** The round constants: the first 32 bits of the fractional parts of the
    cube roots of the first 64 primes. *)
Definition is_prime (p : Z) : bool :=
  forallb (λ d, negb (p mod d =? 0)) (seqZ 2 (p - 2)).

Definition primes : list Z := filter (λ p, is_prime p = true) (seqZ 2 310).

Definition cube_root (x : Z) : Z :=
  foldl (λ r b, let c := r + 2 ^ Z.of_nat b in
                if c * c * c <=? x then c else r)
        0 (reverse (seq 0 36)).

Definition K : list Z :=
  Eval vm_compute in (λ p, w32 (cube_root (p * 2 ^ 96))) <$> primes.

(** The eight working variables. *)
Record regs := Regs { ra : Z; rb : Z; rc : Z; rd : Z;
                      re : Z; rf : Z; rg : Z; rh : Z }.

(** The initial hash value: the same bits of the square roots of the first
    eight primes. *)
Definition root_bits (p : Z) : Z := w32 (Z.sqrt (p * 2 ^ 64)).

Definition H0 : regs :=
  Eval vm_compute in
    Regs (root_bits 2) (root_bits 3) (root_bits 5) (root_bits 7)
         (root_bits 11) (root_bits 13) (root_bits 17) (root_bits 19).

(** Padding: a 1 bit, zeros up to 56 mod 64, the bit length on 8 bytes. *)
Definition be_bytes (n : nat) (x : Z) : list Z :=
  (λ i, Z.land (Z.shiftr x (8 * Z.of_nat i)) 0xFF) <$> reverse (seq 0 n).

Definition pad (msg : list Z) : list Z :=
  let len := Z.of_nat (length msg) in
  let zeros := Z.to_nat ((55 - len) mod 64) in
  msg ++ [0x80] ++ replicate zeros 0 ++ be_bytes 8 (8 * len).

Fixpoint words (fuel : nat) (bs : list Z) : list Z :=
  match fuel, bs with
  | S fuel', b0 :: b1 :: b2 :: b3 :: bs' =>
      Z.lor (Z.shiftl b0 24)
        (Z.lor (Z.shiftl b1 16) (Z.lor (Z.shiftl b2 8) b3))
      :: words fuel' bs'
  | _, _ => []
  end.

(** Message schedule; [w] holds the words so far, latest first. *)
Fixpoint schedule (n : nat) (w : list Z) : list Z :=
  match n with
  | O => reverse w
  | S n' =>
      let x := add32 (add32 (ssig1 (w !!! 1%nat)) (w !!! 6%nat))
                     (add32 (ssig0 (w !!! 14%nat)) (w !!! 15%nat)) in
      schedule n' (x :: w)
  end.

Definition round (r : regs) (kw : Z * Z) : regs :=
  let t1 := add32 (add32 (add32 (rh r) (bsig1 (re r)))
                         (add32 (Ch (re r) (rf r) (rg r)) kw.1)) kw.2 in
  let t2 := add32 (bsig0 (ra r)) (Maj (ra r) (rb r) (rc r)) in
  Regs (add32 t1 t2) (ra r) (rb r) (rc r) (add32 (rd r) t1)
       (re r) (rf r) (rg r).

Definition compress (h : regs) (block : list Z) : regs :=
  let w := schedule 48 (reverse (words 16 block)) in
  let r := foldl round h (zip K w) in
  Regs (add32 (ra h) (ra r)) (add32 (rb h) (rb r)) (add32 (rc h) (rc r))
       (add32 (rd h) (rd r)) (add32 (re h) (re r)) (add32 (rf h) (rf r))
       (add32 (rg h) (rg r)) (add32 (rh h) (rh r)).

Fixpoint blocks (fuel : nat) (h : regs) (bs : list Z) : regs :=
  match fuel, bs with
  | S fuel', _ :: _ => blocks fuel' (compress h (take 64 bs)) (drop 64 bs)
  | _, _ => h
  end.

Definition sha256 (msg : list Z) : regs :=
  let p := pad msg in blocks (length p) H0 p.

Definition hexdigit (x : Z) : N :=
  Z.to_N (if x <? 10 then 48 + x else 87 + x).

Definition hex8 (x : Z) : list N :=
  (λ i, hexdigit (Z.land (Z.shiftr x (4 * Z.of_nat i)) 0xF))
    <$> reverse (seq 0 8).

Definition hexdigest (r : regs) : list N :=
  hex8 (ra r) ++ hex8 (rb r) ++ hex8 (rc r) ++ hex8 (rd r) ++
  hex8 (re r) ++ hex8 (rf r) ++ hex8 (rg r) ++ hex8 (rh r).

End hashlib.

(** [hash_password]: the hex digest of the SHA-256 of the UTF-8 bytes. *)
Definition hash_password (password : str) : str :=
  hashlib.hexdigest (hashlib.sha256 (encode password)).

(** ** [float(s)] for a [str]

    The result is the decimal the text denotes, [m * 10^e] with a sign, or an
    infinity, or a NaN. *)

Inductive real :=
  | Finite (neg : bool) (m : N) (e : Z)
  | Inf (neg : bool)
  | NaN.

Global Instance real_eq_dec : EqDecision real.
Proof. solve_decision. Defined.

(** Code points of the digit zero of every decimal digit system. *)
Definition decimal_zeros : list N :=
  [0x30; 0x660; 0x6f0; 0x7c0; 0x966; 0x9e6; 0xa66; 0xae6; 0xb66; 0xbe6;
   0xc66; 0xce6; 0xd66; 0xde6; 0xe50; 0xed0; 0xf20; 0x1040; 0x1090; 0x17e0;
   0x1810; 0x1946; 0x19d0; 0x1a80; 0x1a90; 0x1b50; 0x1bb0; 0x1c40; 0x1c50;
   0xa620; 0xa8d0; 0xa900; 0xa9d0; 0xa9f0; 0xaa50; 0xabf0; 0xff10; 0x104a0;
   0x10d30; 0x11066; 0x110f0; 0x11136; 0x111d0; 0x112f0; 0x11450; 0x114d0;
   0x11650; 0x116c0; 0x11730; 0x118e0; 0x11950; 0x11c50; 0x11d50; 0x11da0;
   0x16a60; 0x16ac0; 0x16b50; 0x1d7ce; 0x1d7d8; 0x1d7e2; 0x1d7ec; 0x1d7f6;
   0x1e140; 0x1e2f0; 0x1e950; 0x1fbf0]%N.

Definition to_decimal (c : char) : option N :=
  (λ z, c - z)%N <$>
    head (filter (λ z, (z <= c)%N ∧ (c < z + 10)%N) decimal_zeros).

(** Non-ASCII spaces become a space, decimal digits of any script become
    ASCII digits, any other non-ASCII character makes the text invalid. *)
Definition transform_char (c : char) : option N :=
  if (c <? 127)%N then Some c
  else if isspace c then Some 32%N
  else (λ d, 48 + d)%N <$> to_decimal c.

Definition is_ascii_space (c : N) : bool :=
  ((0x09 <=? c) && (c <=? 0x0D))%N || (c =? 0x20)%N.

Definition is_digit (c : N) : bool := ((48 <=? c) && (c <=? 57))%N.

Fixpoint lstrip_ascii (s : list N) : list N :=
  match s with
  | c :: s' => if is_ascii_space c then lstrip_ascii s' else s
  | [] => []
  end.

(** Underscores are dropped, and allowed only between two digits. *)
Fixpoint drop_underscores (prev : N) (s : list N) : option (list N) :=
  match s with
  | [] => if (prev =? 95)%N then None else Some []
  | c :: s' =>
      if (c =? 95)%N then
        if is_digit prev then drop_underscores c s' else None
      else if (prev =? 95)%N && negb (is_digit c) then None
      else cons c <$> drop_underscores c s'
  end.

Fixpoint span_digits (s : list N) : list N * list N :=
  match s with
  | c :: s' =>
      if is_digit c then let '(ds, r) := span_digits s' in (c :: ds, r)
      else ([], s)
  | [] => ([], [])
  end.

Definition digits_value (ds : list N) : N :=
  foldl (λ acc d, 10 * acc + (d - 48))%N 0%N ds.

Definition split_sign (s : list N) : bool * list N :=
  match s with
  | 45%N :: s' => (true, s')
  | 43%N :: s' => (false, s')
  | _ => (false, s)
  end.

Definition lower (c : N) : N :=
  if ((65 <=? c) && (c <=? 90))%N then (c + 32)%N else c.

(** The exponent part: empty, or [e] or [E], a sign, at least one digit. *)
Definition parse_exponent (s : list N) : option Z :=
  match s with
  | [] => Some 0
  | c :: s' =>
      if (lower c =? 101)%N then
        let '(neg, s'') := split_sign s' in
        match span_digits s'' with
        | ((_ :: _) as ds, []) =>
            let v := Z.of_N (digits_value ds) in
            Some (if neg then - v else v)
        | _ => None
        end
      else None
  end.

Definition parse_number (s : list N) : option real :=
  let '(neg, s1) := split_sign s in
  let low := lower <$> s1 in
  if decide (low = py "inf" ∨ low = py "infinity") then Some (Inf neg)
  else if decide (low = py "nan") then Some NaN
  else
    let '(ip, s2) := span_digits s1 in
    let '(fp, s3) :=
      match s2 with
      | 46%N :: s2' => span_digits s2'
      | _ => ([], s2)
      end in
    match ip ++ fp with
    | [] => None
    | ds =>
        ex ← parse_exponent s3;
        Some (Finite neg (digits_value ds) (ex - Z.of_nat (length fp)))
    end.

(** [float(s)]; [None] stands for [ValueError]. *)
Definition float (s : str) : option real :=
  t ← mapM transform_char s;
  let body := reverse (lstrip_ascii (reverse (lstrip_ascii t))) in
  d ← drop_underscores 0%N body;
  parse_number d.

(** ** The store: four tables with AUTOINCREMENT keys *)

Record user := User {
  u_id : Z; u_username : str; u_email : str; u_password : str;
  u_created_at : Z }.

Record task := Task {
  t_id : Z; t_user_id : Z; t_title : str; t_done : Z; t_created_at : Z }.

Record listing := Listing {
  l_id : Z; l_user_id : Z; l_title : str; l_description : str;
  l_price : real; l_listing_type : str; l_created_at : Z }.

Record message := Message {
  m_id : Z; m_name : str; m_email : str; m_message : str; m_created_at : Z }.

Global Instance user_eq_dec : EqDecision user.
Proof. solve_decision. Defined.
Global Instance task_eq_dec : EqDecision task.
Proof. solve_decision. Defined.
Global Instance listing_eq_dec : EqDecision listing.
Proof. solve_decision. Defined.
Global Instance message_eq_dec : EqDecision message.
Proof. solve_decision. Defined.

(** A table: its rows in insertion order and its [sqlite_sequence] entry,
    the largest key ever handed out. *)
Record table (A : Type) := Table { rows : list A; seq_ : Z }.
Arguments Table {A} _ _.
Arguments rows {A} _.
Arguments seq_ {A} _.

Record database := Database {
  users : table user; tasks : table task;
  listings : table listing; messages : table message }.

(** [init_db] on a fresh file: the four tables, empty. *)
Definition init_db : database :=
  Database (Table [] 0) (Table [] 0) (Table [] 0) (Table [] 0).

(** The key AUTOINCREMENT gives the next row: one more than the largest key
    in the table or ever handed out. *)
Definition next_rowid {A} (key : A → Z) (t : table A) : Z :=
  1 + foldr Z.max (seq_ t) (key <$> rows t).

Inductive exn := ValueError | IntegrityError | KeyError | OverflowError.

Global Instance exn_eq_dec : EqDecision exn.
Proof. solve_decision. Defined.

(** INSERT INTO users (username, email, password): both [username] and
    [email] are UNIQUE. *)
Definition insert_user (username email password : str) (now : Z)
    (t : table user) : exn + table user :=
  if decide (username ∈ u_username <$> rows t ∨ email ∈ u_email <$> rows t)
  then inl IntegrityError
  else
    let k := next_rowid u_id t in
    inr (Table (rows t ++ [User k username email password now]) k).

(** INSERT INTO tasks (user_id, title): [done] takes its default 0. *)
Definition insert_task (user_id : Z) (title : str) (now : Z)
    (t : table task) : table task :=
  let k := next_rowid t_id t in
  Table (rows t ++ [Task k user_id title 0 now]) k.

(** INSERT INTO listings: [price] is REAL NOT NULL and a NaN is bound as
    NULL, which the constraint refuses. *)
Definition insert_listing (user_id : Z) (title description : str)
    (price : real) (listing_type : str) (now : Z)
    (t : table listing) : exn + table listing :=
  match price with
  | NaN => inl IntegrityError
  | _ =>
      let k := next_rowid l_id t in
      inr (Table (rows t ++
                  [Listing k user_id title description price listing_type now])
                 k)
  end.

Definition insert_message (name email msg : str) (now : Z)
    (t : table message) : table message :=
  let k := next_rowid m_id t in
  Table (rows t ++ [Message k name email msg now]) k.

(** UPDATE tasks SET done = 1 - done WHERE id = ? AND user_id = ? *)
Definition toggle_row (task_id user_id : Z) (r : task) : task :=
  if decide (t_id r = task_id ∧ t_user_id r = user_id)
  then Task (t_id r) (t_user_id r) (t_title r) (1 - t_done r) (t_created_at r)
  else r.

Definition update_task_done (task_id user_id : Z) (t : table task)
    : table task :=
  Table (toggle_row task_id user_id <$> rows t) (seq_ t).

(** DELETE FROM tasks WHERE id = ? AND user_id = ? *)
Definition delete_task_row (task_id user_id : Z) (t : table task)
    : table task :=
  Table (filter (λ r, ¬ (t_id r = task_id ∧ t_user_id r = user_id)) (rows t))
        (seq_ t).

(** DELETE FROM listings WHERE id = ? AND user_id = ? *)
Definition delete_listing_row (listing_id user_id : Z) (t : table listing)
    : table listing :=
  Table (filter (λ r, ¬ (l_id r = listing_id ∧ l_user_id r = user_id))
                (rows t))
        (seq_ t).

(** SELECT * FROM users WHERE id = ?, first row *)
Definition select_user_by_id (uid : Z) (t : table user) : option user :=
  head (filter (λ u, u_id u = uid) (rows t)).

(** SELECT * FROM users WHERE email = ? AND password = ?, first row *)
Definition select_user_by_credentials (email password : str)
    (t : table user) : option user :=
  head (filter (λ u, u_email u = email ∧ u_password u = password) (rows t)).

(** ORDER BY created_at DESC: the newer row first.  SQL leaves the order of
    rows with equal timestamps open; the merge sort fixes one. *)
Definition newer_first {A} (created_at : A → Z) : relation A :=
  λ a b, created_at b ≤ created_at a.

Global Instance newer_first_dec {A} (f : A → Z) : RelDecision (newer_first f).
Proof. intros a b. unfold newer_first. apply _. Defined.

(** SELECT * FROM tasks WHERE user_id = ? ORDER BY created_at DESC *)
Definition select_tasks_of (uid : Z) (t : table task) : list task :=
  merge_sort (newer_first t_created_at)
             (filter (λ r, t_user_id r = uid) (rows t)).

(** SELECT l.*, u.username FROM listings l JOIN users u ON l.user_id = u.id
    ORDER BY l.created_at DESC *)
Definition select_listings (d : database) : list (listing * str) :=
  merge_sort (newer_first (l_created_at ∘ fst))
    (l ← rows (listings d);
     u ← filter (λ u, u_id u = l_user_id l) (rows (users d));
     [(l, u_username u)]).

(** ** Session, requests and responses *)

(** The signed session cookie: the [user_id] key and the flashed notices,
    each a category and a message.  The templates, which show the notices
    and so take them out of the cookie, are not among the sources: notices
    only accumulate here. *)
Record session := Session {
  user_id : option Z; flashes : list (string * str) }.

Record world := World { db : database; sess : session }.

Inductive method := GET | POST.

Global Instance method_eq_dec : EqDecision method.
Proof. solve_decision. Defined.

(** A request: its method, its form fields and the time it is served. *)
Record request := Request {
  req_method : method; form : gmap string str; now : Z }.

(** What a template is given besides the injected [user]. *)
Inductive context :=
  | NoContext
  | Gadgets
  | Plans
  | Listings (listings : list (listing * str))
  | Tasks (tasks : list task) (done_count : nat).

Inductive response :=
  | Redirect (endpoint : string)
  | Render (template : string) (ctx : context) (user : option user).

(** ** Handlers: state over the world, with exceptions *)

Definition M (A : Type) : Type := world → (exn + A) * world.

Global Instance M_ret : MRet M := λ A a w, (inr a, w).
Global Instance M_bind : MBind M := λ A B k m w,
  match m w with
  | (inl e, w') => (inl e, w')
  | (inr a, w') => k a w'
  end.

Definition raise {A} (e : exn) : M A := λ w, (inl e, w).

(** A Python int fits the store's INTEGER, a signed 64-bit integer. *)
Definition fits_integer (n : Z) : Prop := - 2 ^ 63 ≤ n < 2 ^ 63.

Global Instance fits_integer_dec (n : Z) : Decision (fits_integer n).
Proof. unfold fits_integer. apply _. Defined.

(** Binding a Python int as a parameter of a statement: the driver raises
    when the int does not fit. *)
Definition bind_int (n : Z) : M () :=
  if decide (fits_integer n) then mret () else raise OverflowError.

(** [try: m except e: k] *)
Definition try_except {A} (m : M A) (e : exn) (k : M A) : M A := λ w,
  match m w with
  | (inl e', w') => if decide (e' = e) then k w' else (inl e', w')
  | r => r
  end.

Definition get_db : M database := λ w, (inr (db w), w).
Definition get_session : M session := λ w, (inr (sess w), w).

(** Run a statement and commit: the store changes, or it raises and stays. *)
Definition execute (stmt : database → exn + database) : M () := λ w,
  match stmt (db w) with
  | inl e => (inl e, w)
  | inr d => (inr (), World d (sess w))
  end.

Definition flash (msg : str) (category : string) : M () := λ w,
  (inr (), World (db w)
                 (Session (user_id (sess w))
                          (flashes (sess w) ++ [(category, msg)]))).

(** [session["user_id"]]: raises when the key is missing. *)
Definition session_user_id : M Z := λ w,
  match user_id (sess w) with
  | Some uid => (inr uid, w)
  | None => (inl KeyError, w)
  end.

Definition set_session_user_id (uid : Z) : M () := λ w,
  (inr (), World (db w) (Session (Some uid) (flashes (sess w)))).

Definition session_clear : M () := λ w,
  (inr (), World (db w) (Session None [])).

Definition current_user : M (option user) := λ w,
  match user_id (sess w) with
  | None => (inr None, w)
  | Some uid => (inr (select_user_by_id uid (users (db w))), w)
  end.

Definition redirect (endpoint : string) : M response :=
  mret (Redirect endpoint).

(** The context processor: every template is given [user]. *)
Definition inject_user : M (option user) := current_user.

Definition render_template (template : string) (ctx : context) : M response :=
  user ← inject_user; mret (Render template ctx user).

Definition handler : Type := request → M response.

Definition login_required (fn : handler) : handler := λ req,
  user ← current_user;
  match user with
  | None =>
      flash (py "Iltimos, avval tizimga kiring.") "warning";;
      redirect "login"
  | Some _ => fn req
  end.

(** [request.form.get(key, default)] with the empty text as default *)
Definition form_get (req : request) (key : string) : str :=
  default [] (form req !! key).

Definition is_post (req : request) : bool :=
  bool_decide (req_method req = POST).

Definition with_users (d : database) (t : table user) : database :=
  Database t (tasks d) (listings d) (messages d).
Definition with_tasks (d : database) (t : table task) : database :=
  Database (users d) t (listings d) (messages d).
Definition with_listings (d : database) (t : table listing) : database :=
  Database (users d) (tasks d) t (messages d).
Definition with_messages (d : database) (t : table message) : database :=
  Database (users d) (tasks d) (listings d) t.

(** ** Routes *)

Definition index : handler := λ _, render_template "index.html" Gadgets.

Definition about : handler := λ _, render_template "about.html" NoContext.

Definition contact : handler := λ req,
  if is_post req then
    let name := strip (form_get req "name") in
    let email := strip (form_get req "email") in
    let message := strip (form_get req "message") in
    if truthy name && truthy email && truthy message then
      execute (λ d, inr (with_messages d
        (insert_message name email message (now req) (messages d))));;
      flash (py "Xabaringiz muvaffaqiyatli yuborildi!") "success";;
      redirect "contact"
    else
      flash (py "Iltimos, barcha maydonlarni to'ldiring.") "danger";;
      render_template "contact.html" NoContext
  else render_template "contact.html" NoContext.

Definition pricing : handler := λ _, render_template "pricing.html" Plans.

(** The listing board shown by GET /marketplace and after a refused POST. *)
Definition marketplace_page : M response :=
  d ← get_db;
  render_template "marketplace.html" (Listings (select_listings d)).

Definition marketplace : handler := login_required (λ req,
  if is_post req then
    let title := strip (form_get req "title") in
    let description := strip (form_get req "description") in
    let price := form req !! "price" in
    let listing_type := default (py "sell") (form req !! "listing_type") in
    match price with
    | Some price =>
        if truthy title && truthy price then
          uid ← session_user_id;
          p ← from_option mret (raise ValueError) (float price);
          execute (λ d, sum_map id (with_listings d)
            (insert_listing uid title description p listing_type (now req)
                            (listings d)));;
          flash (py "E'lon muvaffaqiyatli joylashtirildi!") "success";;
          redirect "marketplace"
        else
          flash (py "Sarlavha va narx majburiy.") "danger";;
          marketplace_page
    | None =>
        flash (py "Sarlavha va narx majburiy.") "danger";;
        marketplace_page
    end
  else marketplace_page).

(** The tuple of parameters is built first, [session["user_id"]] included,
    then [db.execute] binds it: [listing_id] is any int the URL converter
    accepted. *)
Definition delete_listing (listing_id : Z) : handler := login_required (λ _,
  uid ← session_user_id;
  bind_int listing_id;;
  execute (λ d, inr (with_listings d
    (delete_listing_row listing_id uid (listings d))));;
  flash (py "E'lon o'chirildi.") "info";;
  redirect "marketplace").

Definition register : handler := λ req,
  user ← current_user;
  if user is Some _ then redirect "dashboard"
  else if is_post req then
    let username := strip (form_get req "username") in
    let email := strip (form_get req "email") in
    let password := form_get req "password" in
    let confirm := form_get req "confirm_password" in
    if negb (truthy username && truthy email && truthy password) then
      flash (py "Barcha maydonlar to'ldirilishi shart.") "danger";;
      render_template "register.html" NoContext
    else if bool_decide (password ≠ confirm) then
      flash (py "Parollar mos kelmayapti.") "danger";;
      render_template "register.html" NoContext
    else if bool_decide (length password < 6)%nat then
      flash (py "Parol kamida 6 ta belgidan iborat bo'lishi kerak.") "danger";;
      render_template "register.html" NoContext
    else
      try_except
        (execute (λ d, sum_map id (with_users d)
           (insert_user username email (hash_password password) (now req)
                        (users d)));;
         flash (py "Ro'yxatdan muvaffaqiyatli o'tdingiz! Iltimos, tizimga kiring.")
               "success";;
         redirect "login")
        IntegrityError
        (flash (py "Bu foydalanuvchi nomi yoki email allaqachon mavjud.")
               "danger";;
         render_template "register.html" NoContext)
  else render_template "register.html" NoContext.

Definition login : handler := λ req,
  user ← current_user;
  if user is Some _ then redirect "dashboard"
  else if is_post req then
    let email := strip (form_get req "email") in
    let password := form_get req "password" in
    d ← get_db;
    match select_user_by_credentials email (hash_password password) (users d)
    with
    | Some user =>
        set_session_user_id (u_id user);;
        flash (py "Xush kelibsiz, " ++ u_username user ++ py "!") "success";;
        redirect "dashboard"
    | None =>
        flash (py "Email yoki parol noto'g'ri.") "danger";;
        render_template "login.html" NoContext
    end
  else render_template "login.html" NoContext.

Definition logout : handler := λ _,
  session_clear;;
  flash (py "Tizimdan muvaffaqiyatli chiqdingiz.") "info";;
  redirect "index".

Definition dashboard : handler := login_required (λ _,
  uid ← session_user_id;
  d ← get_db;
  let tasks := select_tasks_of uid (tasks d) in
  let done_count := length (filter (λ t, t_done t ≠ 0) tasks) in
  render_template "dashboard.html" (Tasks tasks done_count)).

Definition add_task : handler := login_required (λ req,
  let title := strip (form_get req "title") in
  (if truthy title then
     uid ← session_user_id;
     execute (λ d, inr (with_tasks d
       (insert_task uid title (now req) (tasks d))))
   else
     flash (py "Vazifa matni bo'sh bo'lishi mumkin emas.") "warning");;
  redirect "dashboard").

(** [task_id] comes from the URL and is bound as the first parameter. *)
Definition toggle_task (task_id : Z) : handler := login_required (λ _,
  uid ← session_user_id;
  bind_int task_id;;
  execute (λ d, inr (with_tasks d
    (update_task_done task_id uid (tasks d))));;
  redirect "dashboard").

Definition delete_task (task_id : Z) : handler := login_required (λ _,
  uid ← session_user_id;
  bind_int task_id;;
  execute (λ d, inr (with_tasks d
    (delete_task_row task_id uid (tasks d))));;
  redirect "dashboard").

(** ** Notions used in the statements *)

(** What the guard answers when no identity resolves. *)
Definition denied (w : world) : (exn + response) * world :=
  (inr (Redirect "login"),
   World (db w)
         (Session (user_id (sess w))
                  (flashes (sess w) ++
                   [("warning", py "Iltimos, avval tizimga kiring.")]))).

(** The resolved identity, read off the world. *)
Definition identity (w : world) : option user :=
  uid ← user_id (sess w); select_user_by_id uid (users (db w)).

(** The world after one more flashed notice. *)
Definition flashed (w : world) (category : string) (msg : str) : world :=
  World (db w)
        (Session (user_id (sess w)) (flashes (sess w) ++ [(category, msg)])).

(** The response of a handler together with the notices it flashed. *)
Definition reply (h : handler) (req : request) (w : world)
    : (exn + response) * list (string * str) :=
  ((h req w).1, drop (length (flashes (sess w))) (flashes (sess (h req w).2))).

(** The next world and the outcome of a handler. *)
Definition after (h : handler) (req : request) (w : world) : world :=
  (h req w).2.
Definition outcome (h : handler) (req : request) (w : world)
    : exn + response := (h req w).1.

(** ** Schema constraints *)

(** PRIMARY KEY on every table, UNIQUE on [username] and on [email]. *)
Record db_ok (d : database) : Prop := {
  users_key : NoDup (u_id <$> rows (users d));
  users_username : NoDup (u_username <$> rows (users d));
  users_email : NoDup (u_email <$> rows (users d));
  tasks_key : NoDup (t_id <$> rows (tasks d));
  listings_key : NoDup (l_id <$> rows (listings d));
  messages_key : NoDup (m_id <$> rows (messages d)) }.

(** The fields of a registration form pass the three checks. *)
Definition valid_registration (req : request) : Prop :=
  strip (form_get req "username") ≠ [] ∧
  strip (form_get req "email") ≠ [] ∧
  form_get req "password" ≠ [] ∧
  form_get req "password" = form_get req "confirm_password" ∧
  (6 ≤ length (form_get req "password"))%nat.

Global Instance valid_registration_dec req : Decision (valid_registration req).
Proof. unfold valid_registration. apply _. Defined.

(** The form passes the check [if title and price]. *)
Definition title_and_price (req : request) : Prop :=
  strip (form_get req "title") ≠ [] ∧ form_get req "price" ≠ [].

Global Instance title_and_price_dec req : Decision (title_and_price req).
Proof. unfold title_and_price. apply _. Defined.

Definition nonnegative (x : real) : Prop :=
  match x with
  | Finite neg m _ => neg = false ∨ m = 0%N
  | Inf neg => neg = false
  | NaN => False
  end.

Definition sell_or_buy (s : str) : Prop := s = py "sell" ∨ s = py "buy".

(** The digits of a hex digest. *)
Definition hexdigits : str := py "0123456789abcdef".

(** ** The routing table *)

Inductive route :=
  | Index | About | Contact | Pricing | Marketplace
  | DeleteListing (listing_id : Z)
  | Register | Login | Logout | Dashboard | AddTask
  | ToggleTask (task_id : Z) | DeleteTask (task_id : Z).

(** [methods=...] of each [@app.route]; the default is GET only. *)
Definition methods (r : route) : list method :=
  match r with
  | Contact | Marketplace | Register | Login => [GET; POST]
  | DeleteListing _ | AddTask | ToggleTask _ | DeleteTask _ => [POST]
  | Index | About | Pricing | Logout | Dashboard => [GET]
  end.

Definition view (r : route) : handler :=
  match r with
  | Index => index
  | About => about
  | Contact => contact
  | Pricing => pricing
  | Marketplace => marketplace
  | DeleteListing listing_id => delete_listing listing_id
  | Register => register
  | Login => login
  | Logout => logout
  | Dashboard => dashboard
  | AddTask => add_task
  | ToggleTask task_id => toggle_task task_id
  | DeleteTask task_id => delete_task task_id
  end.

(** One request: the router answers 405 itself when the method is not one of
    the route's, and calls the view otherwise. *)
Inductive served :=
  | MethodNotAllowed
  | Answered (r : exn + response).

Definition serve (r : route) (req : request) (w : world) : served * world :=
  if decide (req_method req ∈ methods r)
  then let '(o, w') := view r req w in (Answered o, w')
  else (MethodNotAllowed, w).

(** The worlds the application can be in: from the fresh store and an empty
    session, by serving requests; the next request may come from another
    browser, which has a session cookie of its own (any one, here). *)
Inductive reachable : world → Prop :=
  | reachable_init : reachable (World init_db (Session None []))
  | reachable_serve r req w :
      reachable w → reachable (serve r req w).2
  | reachable_browser w s :
      reachable w → reachable (World (db w) s).

(** A computation keeps the constraints. *)
Definition keeps {A} (m : M A) : Prop :=
  ∀ w, db_ok (db w) → db_ok (db (m w).2).

(** ** A small population and some requests for the examples *)

Definition post (fields : list (string * string)) (t : Z) : request :=
  Request POST (list_to_map (prod_map id py <$> fields)) t.
Definition get (t : Z) : request := Request GET ∅ t.

Definition world0 : world := World init_db (Session None []).

Definition alice : user :=
  User 1 (py "alice") (py "a@x.com") (hash_password (py "secret1")) 10.
Definition bob : user :=
  User 2 (py "bob") (py "b@x.com") (hash_password (py "hunter2!")) 11.

Definition demo_db : database :=
  Database (Table [alice; bob] 2)
           (Table [Task 1 1 (py "Write report") 0 30] 1)
           (Table [Listing 1 1 (py "Phone") [] (Finite false 100 0)
                           (py "sell") 40] 1)
           (Table [] 0).

(** The same store with the credentials written out, as the [users] table
    holds them: the SHA-256 hex digests of [secret1] and of [hunter2!]. *)
Definition alice_stored : user :=
  User 1 (py "alice") (py "a@x.com")
    (py "5b11618c2e44027877d0cd0921ed166b9f176f50587fc91e7534dd2946db77d6")
    10.
Definition bob_stored : user :=
  User 2 (py "bob") (py "b@x.com")
    (py "cb1ade2b05e7886bf34de45d301b26686742d70b0c1884d432dd64c9ef60d624")
    11.
Definition stored_db : database :=
  Database (Table [alice_stored; bob_stored] 2) (tasks demo_db)
           (listings demo_db) (messages demo_db).
Definition visitor : world := World stored_db (Session None []).

Definition as_alice : world := World demo_db (Session (Some 1) []).
Definition as_bob : world := World demo_db (Session (Some 2) []).
Definition anonymous : world := World demo_db (Session None []).

(** The requests that build [demo_db] from the fresh store. *)
Definition history : list (route * request) :=
  [(Register, post [("username", "alice"); ("email", "a@x.com");
                    ("password", "secret1"); ("confirm_password", "secret1")]
                   10);
   (Register, post [("username", "bob"); ("email", "b@x.com");
                    ("password", "hunter2!"); ("confirm_password", "hunter2!")]
                   11);
   (Login, post [("email", "a@x.com"); ("password", "secret1")] 20);
   (AddTask, post [("title", "Write report")] 30);
   (Marketplace, post [("title", "Phone"); ("price", "100")] 40)].

Definition replay (h : list (route * request)) (w : world) : world :=
  foldl (λ w rq, (serve rq.1 rq.2 w).2) w h.

Definition alice_login : request :=
  post [("email", "a@x.com"); ("password", "secret1")] 20.
Definition alice_wrong_password : request :=
  post [("email", "a@x.com"); ("password", "secret2")] 20.

Definition alice_again : request :=
  post [("username", "alice"); ("email", "new@x.com");
        ("password", "secret1"); ("confirm_password", "secret1")] 50.

Definition carol_mismatch : request :=
  post [("username", "carol"); ("email", "c@x.com");
        ("password", "secret1"); ("confirm_password", "secret2")] 50.
Definition carol : request :=
  post [("username", "carol"); ("email", "c@x.com");
        ("password", "secret1"); ("confirm_password", "secret1")] 50.

Definition bad_price : request := post [("title", "x"); ("price", "abc")] 50.
Definition bad_listing : request :=
  post [("title", "x"); ("price", "-5"); ("listing_type", "rent")] 50.

(** ** What one request can do to the store *)

(** The request acts as user [uid]: the session names that key and a
    [users] row has it. *)
Definition acting (w : world) (uid : Z) : Prop :=
  user_id (sess w) = Some uid ∧
  is_Some (select_user_by_id uid (users (db w))).

(** The store after one request: as before, or changed by one statement.
    The statements on [tasks] and [listings] carry the key of the acting
    user. *)
Inductive effect (w : world) : database → Prop :=
  | effect_none : effect w (db w)
  | effect_register username email password now t :
      identity w = None →
      insert_user username email (hash_password password) now
                  (users (db w)) = inr t →
      effect w (with_users (db w) t)
  | effect_contact name email msg now :
      effect w (with_messages (db w)
                  (insert_message name email msg now (messages (db w))))
  | effect_insert_listing uid title description price listing_type now t :
      acting w uid →
      insert_listing uid title description price listing_type now
                     (listings (db w)) = inr t →
      effect w (with_listings (db w) t)
  | effect_delete_listing uid listing_id :
      acting w uid →
      effect w (with_listings (db w)
                  (delete_listing_row listing_id uid (listings (db w))))
  | effect_insert_task uid title now :
      acting w uid →
      effect w (with_tasks (db w) (insert_task uid title now (tasks (db w))))
  | effect_toggle_task uid task_id :
      acting w uid →
      effect w (with_tasks (db w)
                  (update_task_done task_id uid (tasks (db w))))
  | effect_delete_task uid task_id :
      acting w uid →
      effect w (with_tasks (db w) (delete_task_row task_id uid (tasks (db w)))).

(** Every task and every listing belongs to a user of the [users] table
    (the FOREIGN KEY clauses, which the store does not enforce by itself). *)
Definition refs_ok (d : database) : Prop :=
  Forall (λ t, t_user_id t ∈ u_id <$> rows (users d)) (rows (tasks d)) ∧
  Forall (λ l, l_user_id l ∈ u_id <$> rows (users d)) (rows (listings d)).

(** No key of a table is above the table's counter. *)
Definition keys_ok (d : database) : Prop :=
  Forall (λ u, u_id u ≤ seq_ (users d)) (rows (users d)) ∧
  Forall (λ t, t_id t ≤ seq_ (tasks d)) (rows (tasks d)) ∧
  Forall (λ l, l_id l ≤ seq_ (listings d)) (rows (listings d)) ∧
  Forall (λ m, m_id m ≤ seq_ (messages d)) (rows (messages d)).

(** The counter of a table is between 0 and [n], and every key between 1
    and the counter. *)
Definition within {A} (key : A → Z) (n : Z) (t : table A) : Prop :=
  0 ≤ seq_ t ≤ n ∧ Forall (λ r, 1 ≤ key r ≤ seq_ t) (rows t).

Definition keys_within (n : Z) (d : database) : Prop :=
  within u_id n (users d) ∧ within t_id n (tasks d) ∧
  within l_id n (listings d) ∧ within m_id n (messages d).

(** A history: requests, and switches to another browser's session. *)
Inductive event :=
  | Serve (r : route) (req : request)
  | Switch (s : session).

Definition step (w : world) (e : event) : world :=
  match e with
  | Serve r req => (serve r req w).2
  | Switch s => World (db w) s
  end.

Definition run (h : list event) (w : world) : world := foldl step w h.

(** The constraints of the schema together. *)
Definition store_ok (d : database) : Prop := db_ok d ∧ refs_ok d ∧ keys_ok d.

Definition demo_history : list event :=
  [Serve (DeleteTask 1) (post [] 60);
   Switch (Session (Some 2) []);
   Serve AddTask (post [("title", "Call Alice")] 70);
   Serve Logout (get 80)].

Definition after_delete : world :=
  step as_alice (Serve (DeleteTask 1) (post [] 60)).

Arguments strip : simpl never.
Arguments hash_password : simpl never.
Arguments py : simpl never.
Arguments float : simpl never.
Arguments form_get : simpl never.
Arguments insert_user : simpl never.
Arguments select_user_by_id : simpl never.
Arguments select_user_by_credentials : simpl never.

Arguments insert_listing : simpl never.
Arguments select_listings : simpl never.

(** * Proofs *)

(** ** The digest and the parser on known values *)

Example hash_password_abc :
  hash_password (py "abc") =
  py "ba7816bf8f01cfea414140de5dae2223b00361a396177a9cb410ff61f20015ad".
Proof. vm_compute. reflexivity. Qed.

Example hash_password_empty :
  hash_password [] =
  py "e3b0c44298fc1c149afbf4c8996fb92427ae41e4649b934ca495991b7852b855".
Proof. vm_compute. reflexivity. Qed.

Example hash_password_cyrillic :
  hash_password [0x43f; 0x430; 0x440; 0x43e; 0x43b; 0x44c]%N =
  py "2dbc574daca52689a24fb60e835f8c19a36400830df7350859dd32d1abaaec5d".
Proof. vm_compute. reflexivity. Qed.

Example hash_password_two_blocks :
  hash_password (replicate 100 97%N) =
  py "2816597888e4a0d3a36b82b83316ab32680eb8f00f8cd3b904d681246d285a0e".
Proof. vm_compute. reflexivity. Qed.

Example hash_password_multibyte :
  hash_password [0xE9; 0x20AC; 0x1F600]%N =
  py "df9226927fd572c1ee66eec85de1bb139497614899f36e4e90474cb71f6ef9d0".
Proof. vm_compute. reflexivity. Qed.

Example hash_password_padding :
  hash_password (replicate 55 97%N) =
    py "9f4390f8d30c2dd92ec9f095b65e2b9ae9b0a925a5258e241c9f1e910f734318" ∧
  hash_password (replicate 56 97%N) =
    py "b35439a4ac6f0948b6d6f9e3c6af0f5f590ce20f1bde7090ef7970686ec6738a" ∧
  hash_password (replicate 64 97%N) =
    py "ffe054fe7ae0cb6dc65c3af9b61d5209f439851db43d0ba5997337df154668eb".
Proof. vm_compute. done. Qed.

Example float_values :
  float ∘ py <$> ["12.50"; " 1 "; "1_0"; "-5"; ".5"; "1e3"; "1.5E-3"; "1e1_0";
                  "-inf"; "nan"]
  = [Some (Finite false 1250 (-2)); Some (Finite false 1 0);
     Some (Finite false 10 0); Some (Finite true 5 0);
     Some (Finite false 5 (-1)); Some (Finite false 1 3);
     Some (Finite false 15 (-4)); Some (Finite false 1 10);
     Some (Inf true); Some NaN].
Proof. vm_compute. reflexivity. Qed.

Example float_errors :
  float ∘ py <$> ["abc"; " "; "1__0"; "0x10"; "1e"; "."; "- 1"; "1,5"]
  = replicate 8 None ∧
  float [] = None.
Proof. vm_compute. done. Qed.

Example float_other_scripts :
  float [0x661; 0x662]%N = Some (Finite false 12 0) ∧
  float [0x2003; 49; 0xA0]%N = Some (Finite false 1 0) ∧
  float [0x1C; 49]%N = None.
Proof. vm_compute. done. Qed.

Example strip_values :
  strip (py "  a b  ") = py "a b" ∧ strip [0xA0; 97; 0x2003]%N = [97%N] ∧
  strip (py "   ") = [].
Proof. vm_compute. done. Qed.

(** ** The guard *)

Lemma current_user_world (w : world) : (current_user w).2 = w.
Proof. unfold current_user. by destruct (user_id (sess w)). Qed.

Lemma current_user_eq (w : world) : current_user w = ((current_user w).1, w).
Proof. rewrite <- (current_user_world w) at 3. by destruct (current_user w). Qed.

Lemma current_user_Some (w : world) (u : user) :
  (current_user w).1 = inr (Some u) →
  user_id (sess w) = Some (u_id u) ∧ u ∈ rows (users (db w)).
Proof.
  unfold current_user, select_user_by_id.
  destruct (user_id (sess w)) as [uid|]; simpl; [|done].
  intros [= Hu]. apply head_Some_elem_of, list_elem_of_filter in Hu as [-> ?]; done.
Qed.

(** The identity depends on the session and on the [users] table only. *)
Lemma current_user_frame (w w' : world) :
  sess w' = sess w → users (db w') = users (db w) →
  (current_user w').1 = (current_user w).1.
Proof. unfold current_user. intros -> ->. by destruct (user_id (sess w)). Qed.

Lemma login_required_denied (fn : handler) (req : request) (w : world) :
  (current_user w).1 = inr None → login_required fn req w = denied w.
Proof.
  intros H. unfold login_required, mbind, M_bind.
  rewrite current_user_eq, H. reflexivity.
Qed.

Lemma login_required_passes (fn : handler) (req : request) (w : world)
    (u : user) :
  (current_user w).1 = inr (Some u) → login_required fn req w = fn req w.
Proof.
  intros H. unfold login_required, mbind, M_bind.
  rewrite current_user_eq, H. reflexivity.
Qed.

Lemma current_user_identity (w : world) :
  current_user w = (inr (identity w), w).
Proof.
  unfold current_user, identity. by destruct (user_id (sess w)).
Qed.

(** ** Statements on the store *)

Section statements.
Context (task_id uid : Z).

Lemma toggle_row_miss (r : task) :
  ¬ (t_id r = task_id ∧ t_user_id r = uid) → toggle_row task_id uid r = r.
Proof. intros H. unfold toggle_row. by rewrite decide_False. Qed.

Lemma toggle_row_hit (r : task) :
  t_id r = task_id ∧ t_user_id r = uid →
  toggle_row task_id uid r =
  Task (t_id r) (t_user_id r) (t_title r) (1 - t_done r) (t_created_at r).
Proof. intros H. unfold toggle_row. by rewrite decide_True. Qed.

Lemma toggle_row_key (r : task) : t_id (toggle_row task_id uid r) = t_id r.
Proof. unfold toggle_row. by case_decide. Qed.

Lemma toggle_row_involutive (r : task) :
  toggle_row task_id uid (toggle_row task_id uid r) = r.
Proof.
  destruct (decide (t_id r = task_id ∧ t_user_id r = uid)) as [H|H].
  - rewrite (toggle_row_hit r H), toggle_row_hit by done.
    destruct r; simpl; f_equal; lia.
  - by rewrite !(toggle_row_miss r H).
Qed.

Lemma update_task_done_miss (t : table task) :
  Forall (λ r, ¬ (t_id r = task_id ∧ t_user_id r = uid)) (rows t) →
  update_task_done task_id uid t = t.
Proof.
  destruct t as [rs s]. unfold update_task_done. simpl. intros H. f_equal.
  induction H as [|r rs Hr _ IH]; [done|].
  rewrite fmap_cons, IH. by rewrite toggle_row_miss.
Qed.

Lemma update_task_done_involutive (t : table task) :
  update_task_done task_id uid (update_task_done task_id uid t) = t.
Proof.
  destruct t as [rs s]. unfold update_task_done. simpl. f_equal.
  rewrite <- list_fmap_compose.
  induction rs as [|r rs IH]; [done|].
  rewrite fmap_cons, IH. simpl. by rewrite toggle_row_involutive.
Qed.

(** With a primary key, the statement reaches one row. *)
Lemma update_task_done_one (t : table task) (i : nat) (r : task) :
  NoDup (t_id <$> rows t) → rows t !! i = Some r →
  t_id r = task_id ∧ t_user_id r = uid →
  rows (update_task_done task_id uid t) =
  <[i := Task (t_id r) (t_user_id r) (t_title r) (1 - t_done r)
              (t_created_at r)]> (rows t).
Proof.
  destruct t as [rs s]. simpl. revert i.
  induction rs as [|x rs IH]; intros i Hnd Hi Hr; [done|].
  rewrite fmap_cons in Hnd. apply NoDup_cons in Hnd as [Hx Hnd].
  rewrite fmap_cons. destruct i as [|i]; simpl in *.
  - injection Hi as ->. rewrite toggle_row_hit by done. f_equal.
    clear IH Hnd. induction rs as [|y rs IH]; [done|].
    rewrite fmap_cons in Hx. apply not_elem_of_cons in Hx as [Hxy Hx].
    rewrite fmap_cons, IH by done. rewrite toggle_row_miss; [done|].
    intros [Hy _]. destruct Hr as [Hr _]. congruence.
  - rewrite (IH i) by done. rewrite toggle_row_miss; [done|].
    intros [Hx' _]. destruct Hr as [Hr _]. apply Hx.
    apply list_elem_of_fmap. exists r. split; [congruence|].
    by eapply list_elem_of_lookup_2.
Qed.

Lemma delete_task_row_miss (t : table task) :
  Forall (λ r, ¬ (t_id r = task_id ∧ t_user_id r = uid)) (rows t) →
  delete_task_row task_id uid t = t.
Proof.
  destruct t as [rs s]. unfold delete_task_row. simpl. intros H. f_equal.
  induction H as [|r rs Hr _ IH]; [done|].
  rewrite filter_cons_True by done. by rewrite IH.
Qed.

End statements.

Lemma delete_listing_row_miss (listing_id uid : Z) (t : table listing) :
  Forall (λ r, ¬ (l_id r = listing_id ∧ l_user_id r = uid)) (rows t) →
  delete_listing_row listing_id uid t = t.
Proof.
  destruct t as [rs s]. unfold delete_listing_row. simpl. intros H. f_equal.
  induction H as [|r rs Hr _ IH]; [done|].
  rewrite filter_cons_True by done. by rewrite IH.
Qed.

Lemma with_tasks_same (d : database) : with_tasks d (tasks d) = d.
Proof. by destruct d. Qed.
Lemma with_listings_same (d : database) : with_listings d (listings d) = d.
Proof. by destruct d. Qed.

(** ** The guarded routes under a resolved identity *)

Ltac authenticated H :=
  erewrite login_required_passes by exact H;
  let Hs := fresh "Hs" in
  pose proof (current_user_Some _ _ H) as [Hs _];
  unfold mbind, M_bind, session_user_id, execute, redirect, flash, get_db,
    mret, M_ret;
  rewrite ?Hs; simpl.

Lemma bind_int_fits (n : Z) (w : world) :
  fits_integer n → bind_int n w = (inr (), w).
Proof. intros H. unfold bind_int. by rewrite decide_True. Qed.

Lemma bind_int_overflow (n : Z) (w : world) :
  ¬ fits_integer n → bind_int n w = (inl OverflowError, w).
Proof. intros H. unfold bind_int. by rewrite decide_False. Qed.

Lemma toggle_task_run (task_id : Z) (req : request) (w : world) (u : user) :
  fits_integer task_id →
  (current_user w).1 = inr (Some u) →
  toggle_task task_id req w =
  (inr (Redirect "dashboard"),
   World (with_tasks (db w) (update_task_done task_id (u_id u) (tasks (db w))))
         (sess w)).
Proof.
  intros Hfit H. unfold toggle_task. authenticated H.
  by rewrite bind_int_fits.
Qed.

Lemma delete_task_run (task_id : Z) (req : request) (w : world) (u : user) :
  fits_integer task_id →
  (current_user w).1 = inr (Some u) →
  delete_task task_id req w =
  (inr (Redirect "dashboard"),
   World (with_tasks (db w) (delete_task_row task_id (u_id u) (tasks (db w))))
         (sess w)).
Proof.
  intros Hfit H. unfold delete_task. authenticated H.
  by rewrite bind_int_fits.
Qed.

Lemma delete_listing_run (listing_id : Z) (req : request) (w : world)
    (u : user) :
  fits_integer listing_id →
  (current_user w).1 = inr (Some u) →
  delete_listing listing_id req w =
  (inr (Redirect "marketplace"),
   World (with_listings (db w)
            (delete_listing_row listing_id (u_id u) (listings (db w))))
         (Session (user_id (sess w))
                  (flashes (sess w) ++ [("info", py "E'lon o'chirildi.")]))).
Proof.
  intros Hfit H. unfold delete_listing. authenticated H.
  rewrite bind_int_fits by done. simpl. by rewrite ?Hs.
Qed.

(** An id that does not fit the store's INTEGER: the statement is never run,
    the exception leaves the handler and the world is as it was. *)
Lemma toggle_task_overflow (task_id : Z) (req : request) (w : world)
    (u : user) :
  ¬ fits_integer task_id →
  (current_user w).1 = inr (Some u) →
  toggle_task task_id req w = (inl OverflowError, w).
Proof.
  intros Hfit H. unfold toggle_task. authenticated H.
  by rewrite bind_int_overflow.
Qed.

Lemma delete_task_overflow (task_id : Z) (req : request) (w : world)
    (u : user) :
  ¬ fits_integer task_id →
  (current_user w).1 = inr (Some u) →
  delete_task task_id req w = (inl OverflowError, w).
Proof.
  intros Hfit H. unfold delete_task. authenticated H.
  by rewrite bind_int_overflow.
Qed.

Lemma delete_listing_overflow (listing_id : Z) (req : request) (w : world)
    (u : user) :
  ¬ fits_integer listing_id →
  (current_user w).1 = inr (Some u) →
  delete_listing listing_id req w = (inl OverflowError, w).
Proof.
  intros Hfit H. unfold delete_listing. authenticated H.
  by rewrite bind_int_overflow.
Qed.

Lemma demo_db_ok : db_ok demo_db.
Proof. split; compute_done. Defined.

Global Instance newer_first_total {A} (f : A → Z) : Total (newer_first f).
Proof. intros a b. unfold newer_first. lia. Qed.
Global Instance newer_first_trans {A} (f : A → Z) :
  Transitive (newer_first f).
Proof. intros a b c. unfold newer_first. lia. Qed.

Lemma filter_filter_and {A} (P Q : A → Prop) `{!∀ x, Decision (P x)}
    `{!∀ x, Decision (Q x)} (l : list A) :
  filter Q (filter P l) = filter (λ x, P x ∧ Q x) l.
Proof.
  induction l as [|x l IH]; [done|].
  rewrite !filter_cons. destruct (decide (P x)) as [HP|HP].
  - rewrite filter_cons. destruct (decide (Q x)).
    + rewrite decide_True by done. by rewrite IH.
    + rewrite decide_False by tauto. done.
  - rewrite decide_False by tauto. done.
Qed.

(** ** Registration and login *)

Ltac run :=
  unfold render_template, inject_user, redirect, flash, execute, get_db,
    try_except, session_user_id, set_session_user_id, session_clear,
    raise in *;
  unfold current_user, mbind, M_bind, mret, M_ret in *;
  simpl in *.

Lemma unique_column {A B} (f : A → B) (l : list A) (x y : A) :
  NoDup (f <$> l) → x ∈ l → y ∈ l → f x = f y → x = y.
Proof.
  induction l as [|a l IH]; intros Hnd Hx Hy Hf; [by apply elem_of_nil in Hx|].
  rewrite fmap_cons in Hnd. apply NoDup_cons in Hnd as [Ha Hnd].
  apply elem_of_cons in Hx as [->|Hx]; apply elem_of_cons in Hy as [->|Hy].
  - done.
  - destruct Ha. rewrite Hf. by apply list_elem_of_fmap_2.
  - destruct Ha. rewrite <- Hf. by apply list_elem_of_fmap_2.
  - by apply IH.
Qed.

Lemma select_user_by_credentials_Some (e p : str) (t : table user) (u : user) :
  select_user_by_credentials e p t = Some u →
  u ∈ rows t ∧ u_email u = e ∧ u_password u = p.
Proof.
  unfold select_user_by_credentials. intros H.
  apply head_Some_elem_of, list_elem_of_filter in H. tauto.
Qed.

Lemma select_user_by_credentials_None (e p : str) (t : table user) :
  select_user_by_credentials e p t = None →
  ∀ u, u ∈ rows t → ¬ (u_email u = e ∧ u_password u = p).
Proof.
  unfold select_user_by_credentials. intros H u Hu Hep.
  apply head_None in H.
  assert (Hin : u ∈ filter (λ u, u_email u = e ∧ u_password u = p) (rows t))
    by by apply list_elem_of_filter.
  rewrite H in Hin. by apply elem_of_nil in Hin.
Qed.

(** What POST /login does for a visitor without identity. *)
Lemma login_run (req : request) (w : world) :
  req_method req = POST → identity w = None →
  login req w =
  match select_user_by_credentials (strip (form_get req "email"))
          (hash_password (form_get req "password")) (users (db w)) with
  | Some u =>
      (inr (Redirect "dashboard"),
       World (db w)
         (Session (Some (u_id u))
            (flashes (sess w) ++
             [("success", py "Xush kelibsiz, " ++ u_username u ++ py "!")])))
  | None =>
      (inr (Render "login.html" NoContext None),
       World (db w)
         (Session (user_id (sess w))
            (flashes (sess w) ++
             [("danger", py "Email yoki parol noto'g'ri.")])))
  end.
Proof.
  intros Hm Hid. unfold login, is_post, mbind, M_bind.
  rewrite current_user_identity, Hid, Hm. simpl.
  unfold get_db.
  destruct (select_user_by_credentials _ _ _) as [u|]; [done|].
  unfold render_template, inject_user, mbind, M_bind, flash, mret, M_ret.
  rewrite current_user_identity. unfold identity in *. simpl. by rewrite Hid.
Qed.

(** Any other request to /login leaves the world alone or only renders. *)
Lemma login_other (req : request) (w : world) :
  req_method req ≠ POST ∨ identity w ≠ None → (login req w).2 = w.
Proof.
  intros H. unfold login, is_post, mbind, M_bind.
  rewrite current_user_identity.
  destruct (identity w) as [u|] eqn:Hid; [done|].
  destruct H as [H|H]; [|done].
  rewrite bool_decide_eq_false_2 by done.
  unfold render_template, inject_user, mbind, M_bind.
  rewrite current_user_identity.
  by rewrite Hid.
Qed.

Lemma hexdigit_hex (v : Z) : 0 ≤ v < 16 → hashlib.hexdigit v ∈ hexdigits.
Proof.
  intros Hv.
  assert (Hc : v = 0 ∨ v = 1 ∨ v = 2 ∨ v = 3 ∨ v = 4 ∨ v = 5 ∨ v = 6 ∨ v = 7
             ∨ v = 8 ∨ v = 9 ∨ v = 10 ∨ v = 11 ∨ v = 12 ∨ v = 13 ∨ v = 14
             ∨ v = 15) by lia.
  repeat (destruct Hc as [->|Hc]; [compute_done|]). subst. compute_done.
Qed.

Lemma hex8_hex (x : Z) : Forall (λ c, c ∈ hexdigits) (hashlib.hex8 x).
Proof.
  unfold hashlib.hex8. apply Forall_fmap, Forall_forall. intros i _. simpl.
  apply hexdigit_hex. change 15 with (Z.ones 4). rewrite Z.land_ones by lia.
  apply Z.mod_pos_bound. lia.
Qed.

Lemma hash_password_length (password : str) :
  length (hash_password password) = 64%nat.
Proof. reflexivity. Qed.

Lemma hash_password_hex (password : str) :
  Forall (λ c, c ∈ hexdigits) (hash_password password).
Proof.
  unfold hash_password, hashlib.hexdigest.
  repeat (apply Forall_app; split); apply hex8_hex.
Qed.

Lemma truthy_true (s : str) : truthy s = true ↔ s ≠ [].
Proof. by destruct s. Qed.

Lemma strip_nil : strip [] = [].
Proof. reflexivity. Qed.

Lemma insert_user_duplicate (username email password : str) (now : Z)
    (t : table user) :
  username ∈ u_username <$> rows t ∨ email ∈ u_email <$> rows t →
  insert_user username email password now t = inl IntegrityError.
Proof. intros H. unfold insert_user. by rewrite decide_True. Qed.

Lemma insert_user_fresh (username email password : str) (now : Z)
    (t : table user) :
  ¬ (username ∈ u_username <$> rows t ∨ email ∈ u_email <$> rows t) →
  insert_user username email password now t =
  inr (Table (rows t ++ [User (next_rowid u_id t) username email password now])
             (next_rowid u_id t)).
Proof. intros H. unfold insert_user. by rewrite decide_False. Qed.

(** A request to /register that does not reach the INSERT. *)
Lemma register_refused (req : request) (w : world) :
  ¬ (req_method req = POST ∧ identity w = None ∧ valid_registration req) →
  db (register req w).2 = db w ∧
  (register req w).1 ≠ inr (Redirect "login").
Proof.
  intros H. unfold register, is_post, mbind, M_bind.
  rewrite current_user_identity.
  destruct (identity w) as [u|] eqn:Hid; [done|].
  destruct (decide (req_method req = POST)) as [Hm|Hm].
  2: { rewrite bool_decide_eq_false_2 by done.
       unfold render_template, inject_user, mbind, M_bind.
       by rewrite current_user_identity. }
  rewrite bool_decide_eq_true_2 by done.
  unfold valid_registration in H.
  destruct (strip (form_get req "username")) as [|c1 s1] eqn:E1;
    [run; by destruct (user_id (sess w))|].
  destruct (strip (form_get req "email")) as [|c2 s2] eqn:E2;
    [run; by destruct (user_id (sess w))|].
  destruct (form_get req "password") as [|c3 s3] eqn:E3;
    [run; by destruct (user_id (sess w))|].
  cbn [truthy andb negb].
  case_bool_decide as Hc; [run; by destruct (user_id (sess w))|].
  case_bool_decide as Hl; [run; by destruct (user_id (sess w))|].
  destruct H. split; [done|]. split; [done|].
  split; [done|]. split; [done|]. split; [done|].
  split; [exact Hc|simpl in *; lia].
Qed.

(** A request to /register that reaches the INSERT. *)
Lemma register_run (req : request) (w : world) :
  req_method req = POST → identity w = None → valid_registration req →
  register req w =
  match insert_user (strip (form_get req "username"))
          (strip (form_get req "email"))
          (hash_password (form_get req "password")) (now req)
          (users (db w)) with
  | inr t =>
      (inr (Redirect "login"),
       flashed (World (with_users (db w) t) (sess w)) "success"
         (py "Ro'yxatdan muvaffaqiyatli o'tdingiz! Iltimos, tizimga kiring."))
  | inl _ =>
      (inr (Render "register.html" NoContext None),
       flashed w "danger"
         (py "Bu foydalanuvchi nomi yoki email allaqachon mavjud."))
  end.
Proof.
  intros Hm Hid (H1 & H2 & H3 & H4 & H5).
  unfold register, is_post, mbind, M_bind.
  rewrite current_user_identity, Hid, bool_decide_eq_true_2 by done.
  rewrite (proj2 (truthy_true _) H1), (proj2 (truthy_true _) H2),
    (proj2 (truthy_true _) H3).
  cbn [andb negb].
  rewrite bool_decide_eq_false_2 by (intros ?; congruence).
  rewrite bool_decide_eq_false_2 by lia.
  unfold try_except, execute, mbind, M_bind.
  unfold insert_user.
  case_decide as Hd; simpl.
  - unfold flash, render_template, mbind, M_bind, mret, M_ret.
    rewrite current_user_identity. unfold identity in *. simpl.
    by rewrite Hid.
  - reflexivity.
Qed.

Lemma unique_filter {A B} `{EqDecision B} (f : A → B) (l : list A) (b : B) :
  NoDup (f <$> l) → b ∈ f <$> l → ∃ x, filter (λ x, f x = b) l = [x].
Proof.
  induction l as [|a l IH]; intros Hnd Hb; [by apply elem_of_nil in Hb|].
  rewrite fmap_cons in Hnd, Hb. apply NoDup_cons in Hnd as [Ha Hnd].
  rewrite filter_cons. destruct (decide (f a = b)) as [<-|Hne].
  - exists a. f_equal. clear IH Hb Hnd.
    induction l as [|y l IH]; [done|].
    rewrite fmap_cons in Ha. apply not_elem_of_cons in Ha as [Hy Ha].
    rewrite filter_cons_False by done. by apply IH.
  - apply elem_of_cons in Hb as [Hb|Hb]; [congruence|]. by apply IH.
Qed.

(** ** Listings *)

Lemma title_and_price_field (req : request) :
  form_get req "price" ≠ [] →
  ∃ p, form req !! "price" = Some p ∧ p ≠ [].
Proof.
  unfold form_get. destruct (form req !! "price") as [p|]; [|done].
  intros H. by exists p.
Qed.

Lemma marketplace_page_world (w : world) : (marketplace_page w).2 = w.
Proof.
  unfold marketplace_page, get_db, render_template, mbind, M_bind.
  by rewrite current_user_identity.
Qed.

(** A POST /marketplace that passes the presence check. *)
Lemma marketplace_post (req : request) (w : world) (u : user) (p : str) :
  (current_user w).1 = inr (Some u) → req_method req = POST →
  strip (form_get req "title") ≠ [] → form req !! "price" = Some p → p ≠ [] →
  marketplace req w =
  match float p with
  | None => (inl ValueError, w)
  | Some x =>
      match insert_listing (u_id u) (strip (form_get req "title"))
              (strip (form_get req "description")) x
              (default (py "sell") (form req !! "listing_type")) (now req)
              (listings (db w)) with
      | inl e => (inl e, w)
      | inr t =>
          (inr (Redirect "marketplace"),
           flashed (World (with_listings (db w) t) (sess w)) "success"
             (py "E'lon muvaffaqiyatli joylashtirildi!"))
      end
  end.
Proof.
  intros H Hm Ht Hp Hne. unfold marketplace. authenticated H.
  unfold is_post. rewrite bool_decide_eq_true_2, Hp by done.
  rewrite (proj2 (truthy_true _) Ht), (proj2 (truthy_true _) Hne).
  cbn [andb]. rewrite Hs.
  destruct (float p) as [x|]; [|done]. simpl.
  by destruct (insert_listing _ _ _ _ _ _ _).
Qed.

(** Any other request to /marketplace leaves the store alone. *)
Lemma marketplace_other (req : request) (w : world) :
  ¬ (is_Some (identity w) ∧ req_method req = POST ∧ title_and_price req) →
  db (marketplace req w).2 = db w.
Proof.
  intros Hn. unfold marketplace.
  destruct (identity w) as [u|] eqn:Hid.
  2: { rewrite login_required_denied; [done|].
       by rewrite current_user_identity, Hid. }
  assert (H : (current_user w).1 = inr (Some u))
    by (by rewrite current_user_identity, Hid).
  authenticated H. unfold is_post.
  destruct (decide (req_method req = POST)) as [Hm|Hm].
  2: { rewrite bool_decide_eq_false_2 by done.
       by rewrite marketplace_page_world. }
  rewrite bool_decide_eq_true_2 by done.
  destruct (form req !! "price") as [p|] eqn:Hp.
  2: { by rewrite marketplace_page_world. }
  destruct (truthy (strip (form_get req "title")) && truthy p) eqn:Hb.
  2: { by rewrite marketplace_page_world. }
  apply andb_true_iff in Hb as [Ht Hne]. destruct Hn.
  split; [done|]. split; [done|]. split; [by apply truthy_true|].
  unfold form_get. rewrite Hp. by apply truthy_true.
Qed.

(** ** The schema constraints hold in every reachable world *)

Lemma next_rowid_bound {A} (key : A → Z) (t : table A) (x : A) :
  x ∈ rows t → key x < next_rowid key t.
Proof.
  unfold next_rowid. generalize (seq_ t). induction (rows t) as [|a l IH];
    intros s Hx; [by apply elem_of_nil in Hx|].
  rewrite fmap_cons. simpl.
  apply elem_of_cons in Hx as [->|Hx]; [lia|].
  specialize (IH s Hx). lia.
Qed.

Lemma next_rowid_fresh {A} (key : A → Z) (t : table A) :
  next_rowid key t ∉ key <$> rows t.
Proof.
  intros (x & Hk & Hx)%list_elem_of_fmap.
  pose proof (next_rowid_bound key t x Hx). lia.
Qed.

Lemma NoDup_snoc {A} (l : list A) (x : A) :
  NoDup l → x ∉ l → NoDup (l ++ [x]).
Proof.
  intros Hl Hx. apply NoDup_app. split; [done|]. split.
  - intros y Hy ->%list_elem_of_singleton. done.
  - apply NoDup_singleton.
Qed.

Lemma NoDup_fmap_filter {A B} (f : A → B) (P : A → Prop)
    `{!∀ x, Decision (P x)} (l : list A) :
  NoDup (f <$> l) → NoDup (f <$> filter P l).
Proof.
  induction l as [|a l IH]; [done|].
  rewrite fmap_cons. intros [Ha Hl]%NoDup_cons.
  rewrite filter_cons. case_decide; [|by apply IH].
  rewrite fmap_cons. apply NoDup_cons. split; [|by apply IH].
  intros (x & Hk & Hx%list_elem_of_filter)%list_elem_of_fmap.
  apply Ha. apply list_elem_of_fmap. exists x. tauto.
Qed.

Lemma db_ok_insert_user (d : database) (username email password : str)
    (now : Z) (t : table user) :
  db_ok d → insert_user username email password now (users d) = inr t →
  db_ok (with_users d t).
Proof.
  intros [] Hins. unfold insert_user in Hins.
  case_decide as Hdup; [done|]. injection Hins as <-.
  split; simpl; try done; rewrite fmap_app; apply NoDup_snoc; try done; simpl.
  - apply next_rowid_fresh.
  - tauto.
  - tauto.
Qed.

Lemma db_ok_insert_task (d : database) (uid : Z) (title : str) (now : Z) :
  db_ok d → db_ok (with_tasks d (insert_task uid title now (tasks d))).
Proof.
  intros []. split; simpl; try done.
  rewrite fmap_app. apply NoDup_snoc; [done|]. apply next_rowid_fresh.
Qed.

Lemma db_ok_insert_listing (d : database) (uid : Z) (title description : str)
    (price : real) (listing_type : str) (now : Z) (t : table listing) :
  db_ok d →
  insert_listing uid title description price listing_type now (listings d)
    = inr t →
  db_ok (with_listings d t).
Proof.
  intros [] Hins. unfold insert_listing in Hins.
  assert (t = Table (rows (listings d) ++
              [Listing (next_rowid l_id (listings d)) uid title description
                       price listing_type now])
              (next_rowid l_id (listings d))) as ->
    by (destruct price; congruence).
  split; simpl; try done.
  rewrite fmap_app. apply NoDup_snoc; [done|]. apply next_rowid_fresh.
Qed.

Lemma db_ok_insert_message (d : database) (name email msg : str) (now : Z) :
  db_ok d →
  db_ok (with_messages d (insert_message name email msg now (messages d))).
Proof.
  intros []. split; simpl; try done.
  rewrite fmap_app. apply NoDup_snoc; [done|]. apply next_rowid_fresh.
Qed.

Lemma db_ok_update_task_done (d : database) (task_id uid : Z) :
  db_ok d → db_ok (with_tasks d (update_task_done task_id uid (tasks d))).
Proof.
  intros []. split; simpl; try done.
  rewrite <- list_fmap_compose.
  erewrite list_fmap_ext; [done|]. intros i x _. apply toggle_row_key.
Qed.

Lemma db_ok_delete_task_row (d : database) (task_id uid : Z) :
  db_ok d → db_ok (with_tasks d (delete_task_row task_id uid (tasks d))).
Proof. intros []. split; simpl; try done. by apply NoDup_fmap_filter. Qed.

Lemma db_ok_delete_listing_row (d : database) (listing_id uid : Z) :
  db_ok d →
  db_ok (with_listings d (delete_listing_row listing_id uid (listings d))).
Proof. intros []. split; simpl; try done. by apply NoDup_fmap_filter. Qed.

Lemma db_ok_init : db_ok init_db.
Proof. split; simpl; apply NoDup_nil_2. Qed.

Section keeps.
Context {A B : Type}.

Lemma keeps_ret (a : A) : keeps (mret a).
Proof. by intros w. Qed.

Lemma keeps_bind (m : M A) (k : A → M B) :
  keeps m → (∀ a, keeps (k a)) → keeps (m ≫= k).
Proof.
  intros Hm Hk w Hw. unfold mbind, M_bind. specialize (Hm w Hw).
  destruct (m w) as [[e|a] w1]; [done|]. by apply Hk.
Qed.

Lemma keeps_raise (e : exn) : keeps (raise (A:=A) e).
Proof. by intros w. Qed.

Lemma keeps_try_except (m k : M A) (e : exn) :
  keeps m → keeps k → keeps (try_except m e k).
Proof.
  intros Hm Hk w Hw. unfold try_except. specialize (Hm w Hw).
  destruct (m w) as [[e'|a] w1]; [|done]. case_decide; [by apply Hk|done].
Qed.

Lemma keeps_from_option (o : option A) (k : A → M B) (m : M B) :
  (∀ a, keeps (k a)) → keeps m → keeps (from_option k m o).
Proof. intros Hk Hm. destruct o as [a|]; simpl; [apply Hk|apply Hm]. Qed.
End keeps.

Lemma keeps_flash (msg : str) (category : string) : keeps (flash msg category).
Proof. by intros w. Qed.

Lemma keeps_redirect (endpoint : string) : keeps (redirect endpoint).
Proof. by intros w. Qed.

Lemma keeps_current_user : keeps current_user.
Proof. intros w. by rewrite current_user_identity. Qed.

Lemma keeps_render_template (template : string) (ctx : context) :
  keeps (render_template template ctx).
Proof. intros w. unfold render_template, inject_user, mbind, M_bind.
  by rewrite current_user_identity. Qed.

Lemma keeps_get_db : keeps get_db.
Proof. by intros w. Qed.

Lemma keeps_session_user_id : keeps session_user_id.
Proof. intros w. unfold session_user_id. by destruct (user_id (sess w)). Qed.

Lemma keeps_set_session_user_id (uid : Z) : keeps (set_session_user_id uid).
Proof. by intros w. Qed.

Lemma keeps_session_clear : keeps session_clear.
Proof. by intros w. Qed.

Lemma keeps_execute (stmt : database → exn + database) :
  (∀ d d', db_ok d → stmt d = inr d' → db_ok d') → keeps (execute stmt).
Proof.
  intros H w Hw. unfold execute.
  destruct (stmt (db w)) as [e|d'] eqn:E; [done|]. by eapply H.
Qed.

Lemma keeps_login_required (fn : handler) (req : request) :
  keeps (fn req) → keeps (login_required fn req).
Proof.
  intros H. unfold login_required. apply keeps_bind; [apply keeps_current_user|].
  intros [u|]; [done|].
  apply keeps_bind; [apply keeps_flash|]. intros _. apply keeps_redirect.
Qed.

Lemma keeps_marketplace_page : keeps marketplace_page.
Proof.
  apply keeps_bind; [apply keeps_get_db|]. intros d.
  apply keeps_render_template.
Qed.

Lemma keeps_bind_int (n : Z) : keeps (bind_int n).
Proof. intros w Hw. unfold bind_int. by case_decide. Qed.

Create HintDb keeps.
#[local] Hint Resolve keeps_ret keeps_raise keeps_flash keeps_redirect
  keeps_bind_int
  keeps_current_user keeps_render_template keeps_get_db keeps_session_user_id
  keeps_set_session_user_id keeps_session_clear keeps_marketplace_page
  db_ok_insert_task db_ok_insert_message db_ok_update_task_done
  db_ok_delete_task_row db_ok_delete_listing_row : keeps.

Ltac keeps_step :=
  first
    [ apply keeps_login_required
    | apply keeps_bind; [|intros ?]
    | apply keeps_try_except
    | apply keeps_from_option; [intros ?|]
    | apply keeps_execute; intros ? ? ?
    | solve [auto with keeps]
    | match goal with
      | |- keeps (if ?b then _ else _) => destruct b
      | |- keeps (match ?o with _ => _ end) => destruct o
      | |- keeps (let _ := _ in _) => cbv zeta
      end ].

Lemma keeps_view (r : route) (req : request) : keeps (view r req).
Proof.
  destruct r; simpl;
    unfold index, about, contact, pricing, marketplace, delete_listing,
      register, login, logout, dashboard, add_task, toggle_task, delete_task;
    repeat keeps_step.
  - intros [= <-]. auto with keeps.
  - destruct (insert_listing _ _ _ _ _ _ _) eqn:E; intros [= <-].
    by eapply db_ok_insert_listing.
  - intros [= <-]. auto with keeps.
  - destruct (insert_user _ _ _ _ _) eqn:E; intros [= <-].
    by eapply db_ok_insert_user.
  - intros [= <-]. auto with keeps.
  - intros [= <-]. auto with keeps.
  - intros [= <-]. auto with keeps.
Qed.

(** Every request keeps the primary keys and the UNIQUE columns. *)
Theorem serve_db_ok (r : route) (req : request) (w : world) :
  db_ok (db w) → db_ok (db (serve r req w).2).
Proof.
  intros Hw. unfold serve. case_decide; [|done].
  pose proof (keeps_view r req w Hw).
  by destruct (view r req w).
Qed.

Theorem reachable_db_ok (w : world) : reachable w → db_ok (db w).
Proof.
  induction 1 as [|r req w _ IH|w s _ IH];
    [apply db_ok_init|by apply serve_db_ok|done].
Qed.

(** ** Scenarios *)

Lemma replay_reachable (h : list (route * request)) (w : world) :
  reachable w → reachable (replay h w).
Proof.
  revert w. induction h as [|[r req] h IH]; intros w Hw; [done|].
  apply IH. by constructor.
Qed.

Example as_bob_reachable : reachable as_bob.
Proof.
  assert (E : as_bob = World (db (replay history world0)) (Session (Some 2) []))
    by (vm_compute; reflexivity).
  rewrite E. apply reachable_browser, replay_reachable, reachable_init.
Qed.

Example demo_db_reached :
  db (replay history world0) = demo_db ∧
  user_id (sess (replay history world0)) = Some 1.
Proof. vm_compute. done. Qed.

(** Alice registers, logs in, sees no task, adds one, toggles it. *)
Example alice_dashboard :
  let w1 := replay (take 3 history) world0 in
  let w2 := after add_task (post [("title", "Write report")] 30) w1 in
  let w3 := after (toggle_task 1) (post [] 40) w2 in
  (∃ u, outcome dashboard (get 25) w1 =
        inr (Render "dashboard.html" (Tasks [] 0) u)) ∧
  (∃ u, outcome dashboard (get 35) w2 =
        inr (Render "dashboard.html"
               (Tasks [Task 1 1 (py "Write report") 0 30] 0) u)) ∧
  (∃ u, outcome dashboard (get 45) w3 =
        inr (Render "dashboard.html"
               (Tasks [Task 1 1 (py "Write report") 1 30] 1) u)).
Proof. vm_compute. repeat split; eexists; reflexivity. Qed.

(** Bob cannot delete the listing of Alice. *)
Example bob_delete_listing :
  listings (db (after (delete_listing 1) (post [] 60) as_bob))
  = listings demo_db ∧
  rows (listings (db (after (delete_listing 1) (post [] 60) as_alice))) = [].
Proof. vm_compute. done. Qed.

(** ** The claims *)

(** C5.  The guard: when no identity resolves, the answer is the redirect to
    the login page with the warning, whatever the wrapped handler is (it is
    not run) and the store is as before; this is the answer of each of the
    six guarded routes.  When an identity resolves, the guard is the wrapped
    handler, which finds that identity under [session["user_id"]]. *)
Theorem login_required_guard (fn : handler) (req : request) (w : world)
    (id : Z) :
  ((current_user w).1 = inr None →
     login_required fn req w = denied w ∧
     db (denied w).2 = db w ∧
     Forall (λ h : handler, h req w = denied w)
       [marketplace; delete_listing id; dashboard; add_task;
        toggle_task id; delete_task id]) ∧
  (∀ u, (current_user w).1 = inr (Some u) →
     login_required fn req w = fn req w ∧
     session_user_id w = (inr (u_id u), w) ∧
     u ∈ rows (users (db w))).
Proof.
  split.
  - intros H. split; [by apply login_required_denied|]. split; [done|].
    repeat constructor; by apply login_required_denied.
  - intros u H. split; [by eapply login_required_passes|].
    destruct (current_user_Some _ _ H) as [Hs Hu]. split; [|done].
    unfold session_user_id. by rewrite Hs.
Qed.

Lemma login_required_guard_witness :
  login_required logout (get 50) anonymous = denied anonymous ∧
  dashboard (get 50) anonymous = denied anonymous ∧
  login_required logout (get 50) as_bob = logout (get 50) as_bob.
Proof.
  split; [|split].
  - destruct (login_required_guard logout (get 50) anonymous 1) as [H _].
    apply H. reflexivity.
  - destruct (login_required_guard logout (get 50) anonymous 1) as [H _].
    destruct H as (_ & _ & H); [reflexivity|].
    by apply Forall_cons in H as [_ [_ [H _]%Forall_cons]%Forall_cons].
  - destruct (login_required_guard logout (get 50) as_bob 1) as [_ H].
    apply (H bob). reflexivity.
Defined.

(** C1, as stated, fails.  POST /task/toggle/9223372036854775808 by a
    logged-in user: no row of [tasks] or of [listings] has that id, the store
    is left as it was, but the id does not fit the store's INTEGER, binding
    it raises [OverflowError], nothing catches it and the handler ends with
    the exception; the same request for a row the caller owns, or for the
    id 7 that no row has, ends with the redirect.  [delete_task] and
    [delete_listing] do the same. *)
Theorem foreign_row_overflow :
  (current_user as_bob).1 = inr (Some bob) ∧
  Forall (λ r, t_id r ≠ 2 ^ 63) (rows (tasks (db as_bob))) ∧
  Forall (λ r, l_id r ≠ 2 ^ 63) (rows (listings (db as_bob))) ∧
  toggle_task (2 ^ 63) (post [] 50) as_bob = (inl OverflowError, as_bob) ∧
  delete_task (2 ^ 63) (post [] 50) as_bob = (inl OverflowError, as_bob) ∧
  delete_listing (2 ^ 63) (post [] 50) as_bob = (inl OverflowError, as_bob) ∧
  outcome (toggle_task 7) (post [] 50) as_bob = inr (Redirect "dashboard") ∧
  outcome (toggle_task 1) (post [] 50) as_alice = inr (Redirect "dashboard") ∧
  outcome (delete_task 1) (post [] 50) as_alice = inr (Redirect "dashboard") ∧
  outcome (delete_listing 1) (post [] 50) as_alice =
    inr (Redirect "marketplace").
Proof.
  assert (Hbob : (current_user as_bob).1 = inr (Some bob)) by reflexivity.
  assert (Halice : (current_user as_alice).1 = inr (Some alice))
    by reflexivity.
  assert (Hbig : ¬ fits_integer (2 ^ 63)) by (unfold fits_integer; lia).
  assert (H1 : fits_integer 1) by (unfold fits_integer; lia).
  assert (H7 : fits_integer 7) by (unfold fits_integer; lia).
  split; [exact Hbob|].
  split; [repeat constructor; simpl; lia|].
  split; [repeat constructor; simpl; lia|].
  split; [exact (toggle_task_overflow _ _ _ bob Hbig Hbob)|].
  split; [exact (delete_task_overflow _ _ _ bob Hbig Hbob)|].
  split; [exact (delete_listing_overflow _ _ _ bob Hbig Hbob)|].
  unfold outcome.
  rewrite (toggle_task_run 7 _ _ _ H7 Hbob).
  rewrite (toggle_task_run 1 _ _ _ H1 Halice).
  rewrite (delete_task_run 1 _ _ _ H1 Halice).
  rewrite (delete_listing_run 1 _ _ _ H1 Halice).
  simpl. repeat split.
Qed.

(** C2.  The lookup of POST /login finds a user exactly when some row has
    the submitted email and, as stored credential, the SHA-256 hex digest of
    the UTF-8 bytes of the submitted password; the row found is such a row,
    and with UNIQUE emails the row of that email is found exactly when its
    credential is that digest.  The session identity changes only when the
    lookup finds a row, to the key of that row; a failed lookup leaves it as
    it was. *)
Theorem login_verifies (w : world) (req : request) :
  let email := strip (form_get req "email") in
  let password := form_get req "password" in
  let digest := hashlib.hexdigest (hashlib.sha256 (encode password)) in
  let found := select_user_by_credentials email digest (users (db w)) in
  let w' := (login req w).2 in
  (is_Some found ↔
   ∃ u, u ∈ rows (users (db w)) ∧ u_email u = email ∧
        u_password u = digest) ∧
  (∀ u, found = Some u →
        u ∈ rows (users (db w)) ∧ u_email u = email ∧
        u_password u = digest) ∧
  (db_ok (db w) → ∀ u, u ∈ rows (users (db w)) → u_email u = email →
        (found = Some u ↔ u_password u = digest)) ∧
  (req_method req = POST → (current_user w).1 = inr None →
     match found with
     | Some u => (login req w).1 = inr (Redirect "dashboard") ∧
                 user_id (sess w') = Some (u_id u)
     | None => (login req w).1 = inr (Render "login.html" NoContext None) ∧
               user_id (sess w') = user_id (sess w)
     end) ∧
  (user_id (sess w') ≠ user_id (sess w) →
     ∃ u, found = Some u ∧ user_id (sess w') = Some (u_id u)) ∧
  db w' = db w.
Proof.
  intros email password digest found w'.
  change (hash_password password) in (value of digest). subst digest.
  assert (Hsome : ∀ u, found = Some u →
            u ∈ rows (users (db w)) ∧ u_email u = email ∧
            u_password u = hash_password password)
    by apply select_user_by_credentials_Some.
  assert (Hiff : is_Some found ↔
            ∃ u, u ∈ rows (users (db w)) ∧ u_email u = email ∧
                 u_password u = hash_password password).
  { split.
    - intros [u Hu]. exists u. by apply Hsome.
    - intros (u & Hu & He & Hp). destruct found as [v|] eqn:Hf; [by eexists|].
      destruct (select_user_by_credentials_None _ _ _ Hf u Hu). done. }
  assert (Hcases : req_method req = POST ∧ identity w = None ∨
                   (req_method req ≠ POST ∨ identity w ≠ None)).
  { destruct (decide (req_method req = POST)); [|tauto].
    destruct (identity w); [right; right; done|tauto]. }
  split; [done|]. split; [done|]. split; [|split; [|split]].
  - intros Hok u Hu He. split.
    + intros Hf. by apply Hsome in Hf as (_ & _ & ?).
    + intros Hp. destruct Hiff as [_ [v Hv]]; [by exists u|].
      rewrite Hv. f_equal. destruct (Hsome v Hv) as (Hv' & Hve & _).
      eapply (unique_column u_email); [apply Hok|done..|congruence].
  - intros Hm Hid. rewrite current_user_identity in Hid.
    injection Hid as Hid. unfold w'. rewrite (login_run _ _ Hm Hid).
    fold email password found. by destruct found.
  - intros Hch. destruct Hcases as [[Hm Hid]|Hother].
    + unfold w' in *. rewrite (login_run _ _ Hm Hid) in *.
      fold email password found in Hch |- *.
      destruct found as [u|]; [by exists u|done].
    + unfold w' in Hch. by rewrite (login_other _ _ Hother) in Hch.
  - destruct Hcases as [[Hm Hid]|Hother].
    + unfold w'. rewrite (login_run _ _ Hm Hid).
      fold email password found. by destruct found.
    + unfold w'. by rewrite (login_other _ _ Hother).
Qed.

Lemma login_verifies_witness :
  select_user_by_credentials (py "a@x.com")
    (hashlib.hexdigest (hashlib.sha256 (encode (py "secret1"))))
    (users stored_db) = Some alice_stored ∧
  user_id (sess (login alice_login visitor).2) = Some 1 ∧
  user_id (sess (login alice_wrong_password visitor).2) = None.
Proof.
  assert (Hok : db_ok stored_db) by (split; compute_done).
  split; [|split].
  - destruct (login_verifies visitor alice_login) as (_ & _ & H & _).
    apply (H Hok alice_stored); [compute_done|reflexivity|].
    vm_compute. reflexivity.
  - destruct (login_verifies visitor alice_login) as (_ & _ & _ & H & _).
    specialize (H eq_refl eq_refl).
    assert (Hf : select_user_by_credentials
                   (strip (form_get alice_login "email"))
                   (hashlib.hexdigest
                      (hashlib.sha256 (encode (form_get alice_login "password"))))
                   (users (db visitor)) = Some alice_stored)
      by (vm_compute; reflexivity).
    rewrite Hf in H. apply H.
  - destruct (login_verifies visitor alice_wrong_password)
      as (_ & _ & _ & H & _).
    specialize (H eq_refl eq_refl).
    assert (Hf : select_user_by_credentials
                   (strip (form_get alice_wrong_password "email"))
                   (hashlib.hexdigest
                      (hashlib.sha256
                         (encode (form_get alice_wrong_password "password"))))
                   (users (db visitor)) = None)
      by (vm_compute; reflexivity).
    rewrite Hf in H. apply H.
Defined.

(** C3.  A registration whose username or email is already in [users]: the
    INSERT is refused by the store with its uniqueness violation, the store
    is as before (no row added, none changed), the answer is never the
    success redirect, and an attempt that passes the form checks is answered
    by the register page with the duplicate notice (the violation is caught).
    Under the UNIQUE constraints there is, afterwards as before, exactly one
    row for that username, or for that email. *)
Theorem register_duplicate (w : world) (req : request) :
  let username := strip (form_get req "username") in
  let email := strip (form_get req "email") in
  let password := form_get req "password" in
  let w' := (register req w).2 in
  username ∈ u_username <$> rows (users (db w)) ∨
  email ∈ u_email <$> rows (users (db w)) →
  insert_user username email (hash_password password) (now req)
              (users (db w)) = inl IntegrityError ∧
  db w' = db w ∧
  (register req w).1 ≠ inr (Redirect "login") ∧
  (req_method req = POST → (current_user w).1 = inr None →
   valid_registration req →
     register req w =
     (inr (Render "register.html" NoContext None),
      flashed w "danger"
        (py "Bu foydalanuvchi nomi yoki email allaqachon mavjud."))) ∧
  (db_ok (db w) →
     (username ∈ u_username <$> rows (users (db w)) →
        ∃ u, u ∈ rows (users (db w)) ∧
             filter (λ u, u_username u = username) (rows (users (db w'))) = [u]) ∧
     (email ∈ u_email <$> rows (users (db w)) →
        ∃ u, u ∈ rows (users (db w)) ∧
             filter (λ u, u_email u = email) (rows (users (db w'))) = [u])).
Proof.
  intros username email password w' Hdup.
  pose proof (insert_user_duplicate username email (hash_password password)
                (now req) (users (db w)) Hdup) as Hins.
  assert (Hrun : req_method req = POST → identity w = None →
            valid_registration req →
            register req w =
            (inr (Render "register.html" NoContext None),
             flashed w "danger"
               (py "Bu foydalanuvchi nomi yoki email allaqachon mavjud."))).
  { intros Hm Hid Hv. rewrite (register_run _ _ Hm Hid Hv).
    fold username email password. by rewrite Hins. }
  assert (Hdb : db w' = db w ∧ (register req w).1 ≠ inr (Redirect "login")).
  { destruct (decide (req_method req = POST ∧ identity w = None ∧
                      valid_registration req)) as [(Hm & Hid & Hv)|Hn].
    - unfold w'. by rewrite (Hrun Hm Hid Hv).
    - by apply register_refused. }
  destruct Hdb as [Hdb Hout].
  split; [done|]. split; [done|]. split; [done|]. split.
  - intros Hm Hid Hv. apply Hrun; try done.
    rewrite current_user_identity in Hid. by injection Hid.
  - intros Hok. rewrite Hdb. split; intros Hin.
    + destruct (unique_filter u_username _ _ (users_username _ Hok) Hin)
        as [u Hu].
      exists u. split; [|done].
      assert (Hm : u ∈ [u]) by apply list_elem_of_here.
      rewrite <- Hu in Hm. by apply list_elem_of_filter in Hm as [_ ?].
    + destruct (unique_filter u_email _ _ (users_email _ Hok) Hin) as [u Hu].
      exists u. split; [|done].
      assert (Hm : u ∈ [u]) by apply list_elem_of_here.
      rewrite <- Hu in Hm. by apply list_elem_of_filter in Hm as [_ ?].
Qed.

Lemma register_duplicate_witness :
  register alice_again anonymous =
    (inr (Render "register.html" NoContext None),
     flashed anonymous "danger"
       (py "Bu foydalanuvchi nomi yoki email allaqachon mavjud.")) ∧
  db (register alice_again anonymous).2 = demo_db ∧
  ∃ u, u ∈ rows (users demo_db) ∧
       filter (λ u, u_username u = py "alice")
              (rows (users (db (register alice_again anonymous).2))) = [u].
Proof.
  destruct (register_duplicate anonymous alice_again)
    as (_ & Hdb & _ & Hrun & Hone).
  { left. compute_done. }
  split; [|split].
  - apply Hrun; [reflexivity|reflexivity|].
    unfold valid_registration. compute_done.
  - exact Hdb.
  - destruct (Hone demo_db_ok) as [Hu _]. apply Hu. compute_done.
Defined.

(** C4.  A registration with an empty username, email or password, with a
    password that differs from its confirmation, or with a password of fewer
    than 6 characters adds no row and leaves the store as it was.  A
    registration succeeds (the redirect to the login page) exactly when it is
    a POST without identity that passes these checks and meets no duplicate;
    the store then gains one [users] row, whose credential is the SHA-256 hex
    digest of the UTF-8 bytes of the password, computed from the password
    whatever it is: 64 hexadecimal digits, different from the password
    unless the password is itself such a text. *)
Theorem register_validation (w : world) (req : request) :
  let username := strip (form_get req "username") in
  let email := strip (form_get req "email") in
  let password := form_get req "password" in
  let confirm := form_get req "confirm_password" in
  let digest := hashlib.hexdigest (hashlib.sha256 (encode password)) in
  let w' := (register req w).2 in
  (username = [] ∨ email = [] ∨ password = [] ∨ password ≠ confirm ∨
   (length password < 6)%nat →
     db w' = db w ∧ (register req w).1 ≠ inr (Redirect "login")) ∧
  (form_get req "username" = [] → username = []) ∧
  (form_get req "email" = [] → email = []) ∧
  ((register req w).1 = inr (Redirect "login") ↔
     req_method req = POST ∧ (current_user w).1 = inr None ∧
     valid_registration req ∧
     ¬ (username ∈ u_username <$> rows (users (db w)) ∨
        email ∈ u_email <$> rows (users (db w)))) ∧
  ((register req w).1 = inr (Redirect "login") →
     ∃ k, users (db w') =
            Table (rows (users (db w)) ++
                   [User k username email digest (now req)])
                  k ∧
          tasks (db w') = tasks (db w) ∧
          listings (db w') = listings (db w) ∧
          messages (db w') = messages (db w)) ∧
  length digest = 64%nat ∧
  Forall (λ c, c ∈ hexdigits) digest ∧
  (length password ≠ 64%nat ∨ ¬ Forall (λ c, c ∈ hexdigits) password →
     digest ≠ password).
Proof.
  intros username email password confirm digest w'.
  change (hash_password password) in (value of digest). subst digest.
  assert (Hsucc : (register req w).1 = inr (Redirect "login") →
            req_method req = POST ∧ identity w = None ∧
            valid_registration req ∧
            ¬ (username ∈ u_username <$> rows (users (db w)) ∨
               email ∈ u_email <$> rows (users (db w)))).
  { intros Hr.
    destruct (decide (req_method req = POST ∧ identity w = None ∧
                      valid_registration req)) as [(Hm & Hid & Hv)|Hn].
    - repeat (split; [done|]). intros Hdup.
      rewrite (register_run _ _ Hm Hid Hv) in Hr.
      fold username email password in Hr.
      by rewrite insert_user_duplicate in Hr.
    - by destruct (register_refused _ _ Hn). }
  split; [|split; [|split; [|split; [|split; [|split; [|split]]]]]].
  - intros Hbad. apply register_refused. intros (_ & _ & Hv).
    destruct Hv as (H1 & H2 & H3 & H4 & H5).
    fold username in H1. fold email in H2. fold password in H3, H4, H5.
    fold confirm in H4.
    destruct Hbad as [?|[?|[?|[?|?]]]]; try done. lia.
  - unfold username. intros ->. apply strip_nil.
  - unfold email. intros ->. apply strip_nil.
  - split.
    + intros Hr. destruct (Hsucc Hr) as (Hm & Hid & Hv & Hf).
      by rewrite current_user_identity, Hid.
    + intros (Hm & Hid & Hv & Hf). rewrite current_user_identity in Hid.
      injection Hid as Hid. rewrite (register_run _ _ Hm Hid Hv).
      fold username email password. by rewrite insert_user_fresh.
  - intros Hr. destruct (Hsucc Hr) as (Hm & Hid & Hv & Hf).
    exists (next_rowid u_id (users (db w))). unfold w'.
    rewrite (register_run _ _ Hm Hid Hv). fold username email password.
    by rewrite insert_user_fresh.
  - apply hash_password_length.
  - apply hash_password_hex.
  - intros [Hl|Hh] Heq.
    + apply Hl. rewrite <- Heq. apply hash_password_length.
    + apply Hh. rewrite <- Heq. apply hash_password_hex.
Qed.

Lemma register_validation_witness :
  db (register carol_mismatch anonymous).2 = demo_db ∧
  ∃ k, users (db (register carol anonymous).2) =
       Table (rows (users demo_db) ++
              [User k (py "carol") (py "c@x.com")
                 (py "5b11618c2e44027877d0cd0921ed166b9f176f50587fc91e7534dd2946db77d6")
                 50]) k.
Proof.
  split.
  - destruct (register_validation anonymous carol_mismatch) as [H _].
    apply H. right. right. right. left. compute_done.
  - destruct (register_validation anonymous carol)
      as (_ & _ & _ & Hiff & Hrow & _).
    destruct Hrow as (k & Hk & _).
    { apply Hiff. split; [reflexivity|]. split; [reflexivity|].
      split; [unfold valid_registration; compute_done|compute_done]. }
    exists k. rewrite Hk.
    assert (Hd : hashlib.hexdigest
                   (hashlib.sha256 (encode (form_get carol "password"))) =
                 py "5b11618c2e44027877d0cd0921ed166b9f176f50587fc91e7534dd2946db77d6")
      by (vm_compute; reflexivity).
    rewrite Hd. reflexivity.
Defined.

(** C6.  POST /marketplace with a title and the price text [abc], from a
    logged-in user: [float] raises [ValueError], nothing catches it, and the
    handler ends with the exception instead of a response. *)
Theorem marketplace_bad_price_raises :
  title_and_price bad_price ∧
  marketplace bad_price as_alice = (inl ValueError, as_alice).
Proof.
  split.
  - split; compute_done.
  - rewrite (marketplace_post bad_price as_alice alice (py "abc"));
      [|reflexivity|reflexivity|compute_done|compute_done|compute_done].
    assert (Hf : float (py "abc") = None) by (vm_compute; reflexivity).
    by rewrite Hf.
Qed.

(** C7, as stated, fails: a POST that passes the presence check with the
    price [-5] and the listing type [rent] creates a row with a negative
    price and a type that is neither [sell] nor [buy]. *)
Lemma marketplace_listing_counterexample :
  title_and_price bad_listing ∧
  rows (listings (db (marketplace bad_listing as_alice).2)) =
    rows (listings (db as_alice)) ++
    [Listing 2 1 (py "x") [] (Finite true 5 0) (py "rent") 50] ∧
  ¬ nonnegative (Finite true 5 0) ∧
  ¬ sell_or_buy (py "rent").
Proof.
  split; [|split; [|split]].
  - split; compute_done.
  - vm_compute. reflexivity.
  - simpl. intros [?|?]; discriminate.
  - intros [H|H]; vm_compute in H; discriminate.
Qed.

(** C7, amended.  A POST /marketplace adds at most one row.  Its price is
    what [float] reads from the submitted price text: a number of either
    sign or an infinity, never a NaN; no sign check is made.  Its listing
    type is one of [sell] and [buy] whenever the [listing_type] field is
    absent or is one of the two. *)
Theorem marketplace_listing_created (w : world) (req : request) :
  ∃ new,
    rows (listings (db (marketplace req w).2)) =
      rows (listings (db w)) ++ new ∧
    (length new ≤ 1)%nat ∧
    Forall (λ l,
      title_and_price req ∧
      (∃ p, form req !! "price" = Some p ∧ float p = Some (l_price l)) ∧
      l_price l ≠ NaN ∧
      (form req !! "listing_type" = None ∨
       form req !! "listing_type" = Some (py "sell") ∨
       form req !! "listing_type" = Some (py "buy") →
         sell_or_buy (l_listing_type l))) new.
Proof.
  assert (Hnone : db (marketplace req w).2 = db w →
    ∃ new, rows (listings (db (marketplace req w).2)) =
             rows (listings (db w)) ++ new ∧ (length new ≤ 1)%nat ∧
           Forall (λ l,
             title_and_price req ∧
             (∃ p, form req !! "price" = Some p ∧ float p = Some (l_price l)) ∧
             l_price l ≠ NaN ∧
             (form req !! "listing_type" = None ∨
              form req !! "listing_type" = Some (py "sell") ∨
              form req !! "listing_type" = Some (py "buy") →
                sell_or_buy (l_listing_type l))) new).
  { intros ->. exists []. rewrite app_nil_r.
    split; [done|]. split; [simpl; lia|constructor]. }
  destruct (decide (is_Some (identity w) ∧ req_method req = POST ∧
                    title_and_price req)) as [([u Hid] & Hm & Htp)|Hn].
  2: { by apply Hnone, marketplace_other. }
  assert (H : (current_user w).1 = inr (Some u))
    by (by rewrite current_user_identity, Hid).
  pose proof Htp as (Ht & (p & Hp & Hne)%title_and_price_field).
  pose proof (marketplace_post _ _ _ _ H Hm Ht Hp Hne) as Hrun.
  destruct (float p) as [x|] eqn:Hf.
  2: { apply Hnone. by rewrite Hrun. }
  unfold insert_listing in Hrun.
  destruct x as [neg m e|neg|].
  3: { apply Hnone. by rewrite Hrun. }
  all: rewrite Hrun; eexists [_]; split; [reflexivity|]; split; [done|].
  all: constructor; [|done]; simpl.
  all: split; [done|]; split; [by exists p|]; split; [done|].
  all: intros [-> | [-> | ->]]; simpl; [by left|by left|by right].
Qed.

(** C8.  Toggling an owned task flips its [done] flag between 0 and 1,
    whatever its value, and a second toggle brings the flag, and with it the
    whole world, back.  The task is a row of the store, so its key is a value
    of an INTEGER column. *)
Theorem toggle_task_involution (w : world) (req req' : request) (task_id : Z)
    (u : user) (i : nat) (t : task) :
  (current_user w).1 = inr (Some u) →
  rows (tasks (db w)) !! i = Some t → fits_integer (t_id t) →
  t_id t = task_id → t_user_id t = u_id u →
  let w1 := (toggle_task task_id req w).2 in
  let w2 := (toggle_task task_id req' w1).2 in
  (∃ t1, rows (tasks (db w1)) !! i = Some t1 ∧
         t_done t1 = 1 - t_done t ∧
         (t_done t = 0 → t_done t1 = 1) ∧ (t_done t = 1 → t_done t1 = 0)) ∧
  rows (tasks (db w2)) !! i = Some t ∧
  w2 = w.
Proof.
  intros H Hi Hfit Hk Ho w1 w2. rewrite Hk in Hfit.
  assert (Hw1 : w1 = World (with_tasks (db w)
             (update_task_done task_id (u_id u) (tasks (db w)))) (sess w)).
  { unfold w1. by rewrite (toggle_task_run _ _ _ _ Hfit H). }
  assert (H1 : (current_user w1).1 = inr (Some u)).
  { rewrite <- H, Hw1. by apply current_user_frame. }
  assert (Hw2 : w2 = w).
  { unfold w2. rewrite (toggle_task_run _ _ _ _ Hfit H1), Hw1. simpl.
    rewrite update_task_done_involutive.
    destruct w as [[] ?]; reflexivity. }
  split; [|by rewrite Hw2].
  exists (toggle_row task_id (u_id u) t). rewrite Hw1. simpl.
  rewrite list_lookup_fmap, Hi. split; [done|].
  rewrite toggle_row_hit by done. simpl. lia.
Qed.

Lemma toggle_task_involution_witness :
  (toggle_task 1 (post [] 70) (toggle_task 1 (post [] 60) as_alice).2).2
  = as_alice.
Proof.
  refine (proj2 (proj2 (toggle_task_involution as_alice (post [] 60)
    (post [] 70) 1 alice 0 (Task 1 1 (py "Write report") 0 30) _ _ _ _ _)));
    first [reflexivity | compute_done].
Defined.



(** C10.  A toggle by the owner rewrites one row of [tasks], and in it the
    [done] column only; the other rows and tables, the key counters and the
    session are as before.  The task is a row of the store, so its key is a
    value of an INTEGER column. *)
Theorem toggle_task_frame (w : world) (req : request) (task_id : Z)
    (u : user) (i : nat) (t : task) :
  db_ok (db w) →
  (current_user w).1 = inr (Some u) →
  rows (tasks (db w)) !! i = Some t → fits_integer (t_id t) →
  t_id t = task_id → t_user_id t = u_id u →
  let w' := (toggle_task task_id req w).2 in
  rows (tasks (db w')) =
    <[i := Task (t_id t) (t_user_id t) (t_title t) (1 - t_done t)
                (t_created_at t)]> (rows (tasks (db w))) ∧
  (∀ j, j ≠ i → rows (tasks (db w')) !! j = rows (tasks (db w)) !! j) ∧
  seq_ (tasks (db w')) = seq_ (tasks (db w)) ∧
  users (db w') = users (db w) ∧
  listings (db w') = listings (db w) ∧
  messages (db w') = messages (db w) ∧
  sess w' = sess w.
Proof.
  intros Hok H Hi Hfit Hk Ho w'. unfold w'. rewrite Hk in Hfit.
  rewrite (toggle_task_run _ _ _ _ Hfit H).
  pose proof (update_task_done_one task_id (u_id u) (tasks (db w)) i t
                (tasks_key _ Hok) Hi (conj Hk Ho)) as E.
  simpl in *. rewrite E.
  split; [done|]. split; [|done].
  intros j Hj. by rewrite list_lookup_insert_ne.
Qed.

Lemma toggle_task_frame_witness :
  rows (tasks (db (toggle_task 1 (post [] 60) as_alice).2)) =
  [Task 1 1 (py "Write report") 1 30].
Proof.
  refine (proj1 (toggle_task_frame as_alice (post [] 60) 1 alice 0
    (Task 1 1 (py "Write report") 0 30) demo_db_ok _ _ _ _ _));
    first [reflexivity | compute_done].
Defined.

(** * Further properties of the routes *)

(** ** Every route, case by case *)

Lemma select_user_by_id_Some (uid : Z) (t : table user) (u : user) :
  select_user_by_id uid t = Some u → u ∈ rows t ∧ u_id u = uid.
Proof.
  unfold select_user_by_id. intros H.
  apply head_Some_elem_of, list_elem_of_filter in H. tauto.
Qed.

Lemma acting_identity (w : world) (uid : Z) :
  acting w uid ↔ ∃ u, identity w = Some u ∧ u_id u = uid.
Proof.
  unfold acting, identity. split.
  - intros [-> [u Hu]]. exists u. simpl. split; [done|].
    by apply select_user_by_id_Some in Hu as [_ ?].
  - intros (u & Hu & <-). destruct (user_id (sess w)) as [k|]; [|done].
    simpl in Hu. pose proof Hu as [_ ->]%select_user_by_id_Some.
    split; [done|]. by exists u.
Qed.

Lemma acting_user (w : world) (uid : Z) :
  acting w uid → uid ∈ u_id <$> rows (users (db w)).
Proof.
  intros [_ [u [Hu <-]%select_user_by_id_Some]]. by apply list_elem_of_fmap_2.
Qed.

(** Unfold a route down to its cases. *)
Ltac cases_of w :=
  unfold marketplace_page;
  unfold login_required, render_template, inject_user,
    redirect, flash, execute, get_db, try_except, session_user_id,
    set_session_user_id, session_clear, bind_int, raise, is_post;
  unfold current_user, mbind, M_bind, mret, M_ret;
  simpl;
  repeat first
    [ progress simpl
    | match goal with
      | |- context [decide (fits_integer ?n)] =>
          destruct (decide (fits_integer n))
      | |- context [match user_id (sess w) with _ => _ end] =>
          destruct (user_id (sess w)) eqn:?
      | |- context [match select_user_by_id ?k ?t with _ => _ end] =>
          destruct (select_user_by_id k t) eqn:?
      | |- context [bool_decide ?P] => destruct (bool_decide_reflect P)
      | |- context [truthy ?s] => destruct (truthy s) eqn:?
      | |- context [match form ?r !! ?k with _ => _ end] =>
          destruct (form r !! k) eqn:?
      | |- context [match float ?p with _ => _ end] =>
          destruct (float p) eqn:?
      | |- context [from_option _ _ (float ?p)] =>
          destruct (float p) eqn:?
      | |- context [insert_listing ?a ?b ?c ?d ?e ?f ?g] =>
          destruct (insert_listing a b c d e f g) eqn:?
      | |- context [insert_user ?a ?b ?c ?d ?e] =>
          destruct (insert_user a b c d e) eqn:?
      | |- context [select_user_by_credentials ?a ?b ?c] =>
          destruct (select_user_by_credentials a b c) eqn:?
      | |- context [decide (?e = IntegrityError)] =>
          destruct (decide (e = IntegrityError))
      end ].

Ltac all_routes r w :=
  destruct r; simpl;
  unfold index, about, contact, pricing, marketplace, delete_listing,
    register, login, logout, dashboard, add_task, toggle_task, delete_task;
  cases_of w.

Lemma acting_intro (w : world) (uid : Z) (u : user) :
  user_id (sess w) = Some uid →
  select_user_by_id uid (users (db w)) = Some u → acting w uid.
Proof. intros H1 H2. split; [done|by exists u]. Qed.

Lemma identity_None (w : world) :
  user_id (sess w) = None ∨
  (∃ k, user_id (sess w) = Some k ∧
        select_user_by_id k (users (db w)) = None) →
  identity w = None.
Proof.
  unfold identity. intros [->|(k & -> & Hn)]; [done|]. simpl. exact Hn.
Qed.

Ltac find_acting :=
  match goal with
  | H1 : user_id (sess ?w) = Some ?k,
    H2 : select_user_by_id ?k _ = Some _ |- _ =>
      pose proof (acting_intro _ _ _ H1 H2)
  end.

Lemma view_effect (r : route) (req : request) (w : world) :
  effect w (db (view r req w).2).
Proof.
  all_routes r w; simplify_eq; try apply effect_none; try find_acting.
  all: try (by econstructor; eauto).
  all: eapply effect_register; [apply identity_None; eauto|eassumption].
Qed.

Lemma serve_world_cases (r : route) (req : request) (w : world) :
  (serve r req w).2 = w ∨ (serve r req w).2 = (view r req w).2.
Proof.
  unfold serve. case_decide; [right|by left]. by destruct (view r req w).
Qed.

Lemma serve_step (r : route) (req : request) (w : world) :
  effect w (db (serve r req w).2).
Proof.
  destruct (serve_world_cases r req w) as [-> | ->];
    [apply effect_none|apply view_effect].
Qed.

(** X1.  A request leaves the store as it was or changes it by one
    statement: the insert of a user, of a message, of a listing or of a
    task, the toggle of a task, the delete of a task or of a listing.  The
    statements on tasks and listings carry the key that the session names,
    and a user with that key exists; a user is inserted only when no
    identity resolves. *)
Theorem serve_effect (r : route) (req : request) (w : world) :
  effect w (db (serve r req w).2).
Proof.
  unfold serve. case_decide as Hm; [|apply effect_none].
  pose proof (view_effect r req w) as Hv.
  by destruct (view r req w).
Qed.

Lemma insert_user_inr (username email password : str) (now : Z)
    (t t' : table user) :
  insert_user username email password now t = inr t' →
  (t' = Table (rows t ++
                [User (next_rowid u_id t) username email password now])
              (next_rowid u_id t)) ∧
  (username ∉ u_username <$> rows t) ∧ (email ∉ u_email <$> rows t).
Proof.
  unfold insert_user. case_decide as H; [done|]. intros [= <-]. tauto.
Qed.

Lemma insert_user_inl (username email password : str) (now : Z)
    (t : table user) (e : exn) :
  insert_user username email password now t = inl e → e = IntegrityError.
Proof. unfold insert_user. case_decide; by intros [= <-]. Qed.

Lemma insert_listing_inr (uid : Z) (title description : str) (price : real)
    (listing_type : str) (now : Z) (t t' : table listing) :
  insert_listing uid title description price listing_type now t = inr t' →
  (t' = Table (rows t ++ [Listing (next_rowid l_id t) uid title description
                                  price listing_type now])
              (next_rowid l_id t)) ∧
  price ≠ NaN.
Proof. unfold insert_listing. destruct price; intros [= <-]; done. Qed.

Lemma next_rowid_seq {A} (key : A → Z) (t : table A) :
  seq_ t < next_rowid key t.
Proof.
  unfold next_rowid. generalize (key <$> rows t). intros l.
  induction l as [|a l IH]; simpl; lia.
Qed.

Lemma next_rowid_exact {A} (key : A → Z) (t : table A) :
  Forall (λ x, key x ≤ seq_ t) (rows t) → next_rowid key t = 1 + seq_ t.
Proof.
  unfold next_rowid. intros H. f_equal.
  induction H as [|a l Ha _ IH]; [done|]. rewrite fmap_cons. simpl. lia.
Qed.

Lemma toggle_row_owner (task_id uid : Z) (r : task) :
  t_user_id (toggle_row task_id uid r) = t_user_id r.
Proof. unfold toggle_row. by case_decide. Qed.

Lemma Forall_filter_keep {A} (P Q : A → Prop) `{!∀ x, Decision (Q x)}
    (l : list A) :
  Forall P l → Forall P (filter Q l).
Proof.
  induction 1 as [|x l Hx _ IH]; [constructor|].
  rewrite filter_cons. case_decide; [by constructor|done].
Qed.

(** ** Invariants along a history *)

Lemma effect_refs_ok (w : world) (d : database) :
  effect w d → refs_ok (db w) → refs_ok d.
Proof.
  intros He [Ht Hl]. destruct He as
    [|?????? Hins|????|??????? Hact Hins|?? Hact|??? Hact|?? Hact|?? Hact];
    try done.
  - apply insert_user_inr in Hins as [-> _]. split; simpl.
    + eapply Forall_impl; [exact Ht|]. intros t Hin. simpl in Hin.
      rewrite fmap_app. apply elem_of_app. by left.
    + eapply Forall_impl; [exact Hl|]. intros l Hin. simpl in Hin.
      rewrite fmap_app. apply elem_of_app. by left.
  - apply insert_listing_inr in Hins as [-> _]. split; [done|]. simpl.
    apply Forall_app. split; [done|]. constructor; [|done]. simpl.
    by apply acting_user.
  - split; [done|]. simpl. by apply Forall_filter_keep.
  - split; [|done]. simpl.
    apply Forall_app. split; [done|]. constructor; [|done]. simpl.
    by apply acting_user.
  - split; [|done]. simpl. apply Forall_fmap.
    eapply Forall_impl; [exact Ht|]. intros t Hin. simpl.
    by rewrite toggle_row_owner.
  - split; [|done]. simpl. by apply Forall_filter_keep.
Qed.

Lemma Forall_le_trans {A} (f : A → Z) (a b : Z) (l : list A) :
  a ≤ b → Forall (λ x, f x ≤ a) l → Forall (λ x, f x ≤ b) l.
Proof.
  intros Hab H. eapply Forall_impl; [exact H|]. intros x. simpl. lia.
Qed.

Lemma keys_ok_snoc {A} (key : A → Z) (t : table A) (x : A) :
  Forall (λ y, key y ≤ seq_ t) (rows t) → key x = next_rowid key t →
  Forall (λ y, key y ≤ next_rowid key t) (rows t ++ [x]).
Proof.
  intros H Hx. apply Forall_app. split.
  - eapply Forall_le_trans; [|exact H]. pose proof (next_rowid_seq key t). lia.
  - constructor; [lia|done].
Qed.

Lemma effect_keys_ok (w : world) (d : database) :
  effect w d → keys_ok (db w) → keys_ok d.
Proof.
  intros He (Hu & Ht & Hl & Hm). destruct He as
    [|?????? Hins|????|??????? Hact Hins|?? Hact|??? Hact|?? Hact|?? Hact];
    try done.
  - apply insert_user_inr in Hins as [-> _].
    split; [|done]. simpl. by apply keys_ok_snoc.
  - repeat (split; [done|]). simpl. by apply keys_ok_snoc.
  - apply insert_listing_inr in Hins as [-> _].
    split; [done|]. split; [done|]. split; [|done]. simpl.
    by apply keys_ok_snoc.
  - split; [done|]. split; [done|]. split; [|done]. simpl.
    by apply Forall_filter_keep.
  - split; [done|]. split; [|done]. simpl. by apply keys_ok_snoc.
  - split; [done|]. split; [|done]. simpl. apply Forall_fmap.
    eapply Forall_impl; [exact Ht|]. intros t Hin. simpl.
    by rewrite toggle_row_key.
  - split; [done|]. split; [|done]. simpl. by apply Forall_filter_keep.
Qed.

Lemma step_effect (w : world) (e : event) : effect w (db (step w e)).
Proof. destruct e; simpl; [apply serve_step|apply effect_none]. Qed.

Lemma step_db_ok (w : world) (e : event) :
  db_ok (db w) → db_ok (db (step w e)).
Proof. destruct e; simpl; [apply serve_db_ok|done]. Qed.

Lemma run_snoc (h : list event) (e : event) (w : world) :
  run (h ++ [e]) w = step (run h w) e.
Proof. unfold run. by rewrite foldl_app. Qed.

Lemma store_ok_init : store_ok init_db.
Proof.
  split; [apply db_ok_init|]. split; repeat split; simpl; constructor.
Qed.

(** X2.  The PRIMARY KEY and UNIQUE constraints, the owner of every task
    and listing being a user, and the counters dominating the keys hold
    after every history when they hold before it. *)
Theorem run_store_ok (h : list event) (w : world) :
  store_ok (db w) → store_ok (db (run h w)).
Proof.
  intros Hw. induction h as [|e h IH] using rev_ind; [done|].
  rewrite run_snoc. destruct IH as (H1 & H2 & H3).
  pose proof (step_effect (run h w) e) as He.
  split; [by apply step_db_ok|].
  split; [by eapply effect_refs_ok|by eapply effect_keys_ok].
Qed.

Lemma demo_store_ok : store_ok demo_db.
Proof.
  split; [apply demo_db_ok|].
  split; repeat split; simpl; repeat constructor; simpl; compute_done.
Defined.

Lemma run_store_ok_witness : store_ok (db (run demo_history as_alice)).
Proof. apply (run_store_ok demo_history as_alice). exact demo_store_ok. Defined.

Lemma effect_key_gone (w : world) (d : database) (k : Z) :
  effect w d → keys_ok (db w) →
  (k ≤ seq_ (tasks (db w)) → k ∉ t_id <$> rows (tasks (db w)) →
   k ≤ seq_ (tasks d) ∧ k ∉ t_id <$> rows (tasks d)) ∧
  (k ≤ seq_ (listings (db w)) → k ∉ l_id <$> rows (listings (db w)) →
   k ≤ seq_ (listings d) ∧ k ∉ l_id <$> rows (listings d)).
Proof.
  intros He (Hu & Ht & Hl & Hm). destruct He as
    [|?????? Hins|????|??????? Hact Hins|?? Hact|??? Hact|?? Hact|?? Hact];
    try done.
  - apply insert_listing_inr in Hins as [-> _]. split; [done|]. simpl.
    intros Hk Hn. pose proof (next_rowid_seq l_id (listings (db w))).
    split; [lia|]. rewrite fmap_app. intros [?|Hin]%elem_of_app; [done|].
    apply list_elem_of_singleton in Hin. simpl in Hin. lia.
  - split; [done|]. simpl. intros Hk Hn. split; [done|].
    intros (l & Hl1 & [_ Hl2]%list_elem_of_filter)%list_elem_of_fmap.
    apply Hn. subst. by apply list_elem_of_fmap_2.
  - split; [|done]. simpl.
    intros Hk Hn. pose proof (next_rowid_seq t_id (tasks (db w))).
    split; [lia|]. rewrite fmap_app. intros [?|Hin]%elem_of_app; [done|].
    apply list_elem_of_singleton in Hin. simpl in Hin. lia.
  - split; [|done]. simpl. intros Hk Hn. split; [done|].
    rewrite <- list_fmap_compose.
    erewrite list_fmap_ext; [exact Hn|]. intros i x _. apply toggle_row_key.
  - split; [|done]. simpl. intros Hk Hn. split; [done|].
    intros (l & Hl1 & [_ Hl2]%list_elem_of_filter)%list_elem_of_fmap.
    apply Hn. subst. by apply list_elem_of_fmap_2.
Qed.

(** X3.  A key once handed out and no longer in the table (the row was
    deleted) never comes back, whatever requests follow. *)
Theorem deleted_key_never_reused (h : list event) (w : world) (k : Z) :
  keys_ok (db w) →
  (k ≤ seq_ (tasks (db w)) → k ∉ t_id <$> rows (tasks (db w)) →
   k ∉ t_id <$> rows (tasks (db (run h w)))) ∧
  (k ≤ seq_ (listings (db w)) → k ∉ l_id <$> rows (listings (db w)) →
   k ∉ l_id <$> rows (listings (db (run h w)))).
Proof.
  intros Hw.
  assert (H : keys_ok (db (run h w)) ∧
    (k ≤ seq_ (tasks (db w)) → k ∉ t_id <$> rows (tasks (db w)) →
     k ≤ seq_ (tasks (db (run h w))) ∧
     k ∉ t_id <$> rows (tasks (db (run h w)))) ∧
    (k ≤ seq_ (listings (db w)) → k ∉ l_id <$> rows (listings (db w)) →
     k ≤ seq_ (listings (db (run h w))) ∧
     k ∉ l_id <$> rows (listings (db (run h w))))).
  { induction h as [|e h IH] using rev_ind.
    { split; [exact Hw|]. split; intros ??; by split. }
    rewrite run_snoc. destruct IH as (Hok & Ht & Hl).
    pose proof (step_effect (run h w) e) as He.
    destruct (effect_key_gone _ _ k He Hok) as [Ht' Hl'].
    split; [by eapply effect_keys_ok|]. split.
    - intros H1 H2. destruct (Ht H1 H2). by apply Ht'.
    - intros H1 H2. destruct (Hl H1 H2). by apply Hl'. }
  destruct H as (_ & Ht & Hl). split; intros H1 H2.
  - by destruct (Ht H1 H2).
  - by destruct (Hl H1 H2).
Qed.

Lemma deleted_key_never_reused_witness :
  1 ∉ t_id <$> rows (tasks (db (run (drop 1 demo_history) after_delete))).
Proof.
  refine (proj1 (deleted_key_never_reused (drop 1 demo_history) after_delete
                   1 _) _ _).
  - unfold keys_ok. compute_done.
  - compute_done.
  - compute_done.
Defined.

Lemma effect_append_only (w : world) (d : database) :
  effect w d →
  rows (users (db w)) `prefix_of` rows (users d) ∧
  rows (messages (db w)) `prefix_of` rows (messages d).
Proof.
  intros He. destruct He as
    [|?????? Hins|????|??????? Hact Hins|?? Hact|??? Hact|?? Hact|?? Hact];
    try done.
  - apply insert_user_inr in Hins as [-> _]. split; [|done].
    simpl. by apply prefix_app_r.
  - split; [done|]. simpl. by apply prefix_app_r.
Qed.

(** X4.  No history changes or removes a row of [users] or of [messages]:
    the rows before are a prefix of the rows after. *)
Theorem users_messages_append_only (h : list event) (w : world) :
  rows (users (db w)) `prefix_of` rows (users (db (run h w))) ∧
  rows (messages (db w)) `prefix_of` rows (messages (db (run h w))).
Proof.
  induction h as [|e h IH] using rev_ind; [done|].
  rewrite run_snoc. destruct IH as [Hu Hm].
  destruct (effect_append_only _ _ (step_effect (run h w) e)) as [Hu' Hm'].
  split; etrans; eauto.
Qed.

Lemma filter_app_miss {A} (P : A → Prop) `{!∀ x, Decision (P x)}
    (l : list A) (x : A) :
  ¬ P x → filter P (l ++ [x]) = filter P l.
Proof.
  intros Hx. rewrite filter_app, filter_cons_False by done.
  apply app_nil_r.
Qed.

Lemma filter_filter_miss {A} (P Q : A → Prop) `{!∀ x, Decision (P x)}
    `{!∀ x, Decision (Q x)} (l : list A) :
  (∀ x, P x → Q x) → filter P (filter Q l) = filter P l.
Proof.
  intros Himp. induction l as [|x l IH]; [done|].
  rewrite (filter_cons Q). destruct (decide (Q x)) as [HQ|HQ].
  - rewrite !filter_cons. by rewrite IH.
  - rewrite IH. rewrite filter_cons_False; [done|].
    intros HP. by apply HQ, Himp.
Qed.

Lemma filter_toggle_miss (task_id uid o : Z) (l : list task) :
  uid ≠ o →
  filter (λ t, t_user_id t = o) (toggle_row task_id uid <$> l) =
  filter (λ t, t_user_id t = o) l.
Proof.
  intros H. induction l as [|x l IH]; [done|].
  rewrite fmap_cons, !filter_cons, IH, toggle_row_owner.
  case_decide as Hx; [|done]. f_equal. apply toggle_row_miss.
  intros [_ ?]. congruence.
Qed.

(** X5.  Whatever the route, a request leaves alone the tasks and the
    listings of every user other than the one its session names. *)
Theorem other_users_rows_untouched (r : route) (req : request) (w : world)
    (o : Z) :
  user_id (sess w) ≠ Some o →
  filter (λ t, t_user_id t = o) (rows (tasks (db (serve r req w).2))) =
  filter (λ t, t_user_id t = o) (rows (tasks (db w))) ∧
  filter (λ l, l_user_id l = o) (rows (listings (db (serve r req w).2))) =
  filter (λ l, l_user_id l = o) (rows (listings (db w))).
Proof.
  intros Ho.
  assert (Hne : ∀ uid, acting w uid → uid ≠ o).
  { intros uid [Hs _] ->. done. }
  destruct (serve_step r req w) as
    [|?????? Hins|????|??????? Hact Hins|?? Hact|??? Hact|?? Hact|?? Hact];
    try done; try specialize (Hne _ Hact).
  - apply insert_listing_inr in Hins as [-> _]. split; [done|]. simpl.
    by apply filter_app_miss.
  - split; [done|]. simpl. apply filter_filter_miss.
    intros l Hl [_ ?]. congruence.
  - split; [|done]. simpl. by apply filter_app_miss.
  - split; [|done]. simpl. by apply filter_toggle_miss.
  - split; [|done]. simpl. apply filter_filter_miss.
    intros l Hl [_ ?]. congruence.
Qed.

Lemma other_users_rows_untouched_witness :
  filter (λ t, t_user_id t = 1)
         (rows (tasks (db (serve (DeleteTask 1) (post [] 60) as_bob).2))) =
  [Task 1 1 (py "Write report") 0 30].
Proof.
  refine (proj1 (other_users_rows_untouched (DeleteTask 1) (post [] 60)
                   as_bob 1 _)).
  compute_done.
Defined.

(** X6.  No request rewrites a row in place, except for the [done] column of
    a task: a task after the request is a task from before with the same
    key, owner, title and time, its flag kept or flipped, or it is a new
    task of the session's user with the flag 0; a listing after the request
    is a listing from before or a new one of the session's user. *)
Theorem rows_keep_their_columns (r : route) (req : request) (w : world) :
  (∀ t', t' ∈ rows (tasks (db (serve r req w).2)) →
     (∃ t, t ∈ rows (tasks (db w)) ∧
           t_id t' = t_id t ∧ t_user_id t' = t_user_id t ∧
           t_title t' = t_title t ∧ t_created_at t' = t_created_at t ∧
           (t_done t' = t_done t ∨ t_done t' = 1 - t_done t)) ∨
     (user_id (sess w) = Some (t_user_id t') ∧ t_done t' = 0 ∧
      t_id t' ∉ t_id <$> rows (tasks (db w)))) ∧
  (∀ l', l' ∈ rows (listings (db (serve r req w).2)) →
     l' ∈ rows (listings (db w)) ∨
     (user_id (sess w) = Some (l_user_id l') ∧
      l_id l' ∉ l_id <$> rows (listings (db w)))).
Proof.
  assert (Hsame : ∀ t', t' ∈ rows (tasks (db w)) →
    ∃ t, t ∈ rows (tasks (db w)) ∧
         t_id t' = t_id t ∧ t_user_id t' = t_user_id t ∧
         t_title t' = t_title t ∧ t_created_at t' = t_created_at t ∧
         (t_done t' = t_done t ∨ t_done t' = 1 - t_done t)).
  { intros t' Ht'. exists t'. repeat split; auto. }
  destruct (serve_step r req w) as
    [|?????? Hins|????|??????? Hact Hins|?? Hact|??? Hact|?? Hact|?? Hact];
    simpl.
  all: try (split; [by left; apply Hsame|by left]).
  - apply insert_listing_inr in Hins as [-> _].
    split; [by left; apply Hsame|]. simpl.
    intros l' [?|Hl']%elem_of_app; [by left|right].
    apply list_elem_of_singleton in Hl' as ->. simpl.
    split; [apply Hact|apply next_rowid_fresh].
  - split; [by left; apply Hsame|].
    intros l' [_ ?]%list_elem_of_filter. by left.
  - split; [|by left].
    intros t' [?|Ht']%elem_of_app; [by left; apply Hsame|right].
    apply list_elem_of_singleton in Ht' as ->. simpl.
    split; [apply Hact|]. split; [done|apply next_rowid_fresh].
  - split; [|by left].
    intros t' (t & -> & Ht)%list_elem_of_fmap. left. exists t.
    split; [done|]. unfold toggle_row. case_decide; simpl; auto 10.
  - split; [|by left].
    intros t' [_ ?]%list_elem_of_filter. left. by apply Hsame.
Qed.

(** The exceptions a view ends with: necessary conditions. *)
Lemma view_raises_only (r : route) (req : request) (w : world) (e : exn) :
  (view r req w).1 = inl e →
  (view r req w).2 = w ∧
  (∃ uid, acting w uid) ∧
  (r = Marketplace ∧ req_method req = POST ∧ title_and_price req ∧
   (∃ p, form req !! "price" = Some p ∧
      (e = ValueError ∧ float p = None ∨
       e = IntegrityError ∧ float p = Some NaN)) ∨
   e = OverflowError ∧
   ∃ id, ¬ fits_integer id ∧
         (r = ToggleTask id ∨ r = DeleteTask id ∨ r = DeleteListing id)).
Proof.
  all_routes r w; simplify_eq; try discriminate; try find_acting.
  all: intros [= <-].
  all: try (match goal with
            | H : insert_user _ _ _ _ _ = inl _ |- _ =>
                apply insert_user_inl in H; congruence
            end).
  all: split; [done|]; split; [by eexists|].
  3-5: right; split; [done|]; eexists; split; [eassumption|]; auto.
  all: left; split; [done|]; split; [done|].
  all: split;
    [split; [by apply truthy_true|];
     unfold form_get;
     match goal with H : form _ !! "price" = Some _ |- _ => rewrite H end;
     by apply truthy_true|].
  all: eexists; split; [reflexivity|].
  - right. unfold insert_listing in *. destruct r; by simplify_eq.
  - by left.
Qed.

(** The same conditions are sufficient. *)
Lemma view_raises_when (r : route) (req : request) (w : world) (e : exn) :
  (∃ uid, acting w uid) →
  (r = Marketplace ∧ req_method req = POST ∧ title_and_price req ∧
   (∃ p, form req !! "price" = Some p ∧
      (e = ValueError ∧ float p = None ∨
       e = IntegrityError ∧ float p = Some NaN)) ∨
   e = OverflowError ∧
   ∃ id, ¬ fits_integer id ∧
         (r = ToggleTask id ∨ r = DeleteTask id ∨ r = DeleteListing id)) →
  (view r req w).1 = inl e.
Proof.
  intros [uid (u & Hid & _)%acting_identity].
  assert (H : (current_user w).1 = inr (Some u))
    by (by rewrite current_user_identity, Hid).
  intros [(-> & Hm & [Ht Hne] & p & Hp & Hf)|(-> & id & Hfit & Hr)].
  - simpl. unfold form_get in Hne. rewrite Hp in Hne. simpl in Hne.
    rewrite (marketplace_post _ _ _ _ H Hm Ht Hp Hne).
    by destruct Hf as [[-> ->]|[-> ->]].
  - destruct Hr as [->| [->| ->]]; simpl.
    + by rewrite (toggle_task_overflow _ _ _ _ Hfit H).
    + by rewrite (delete_task_overflow _ _ _ _ Hfit H).
    + by rewrite (delete_listing_overflow _ _ _ _ Hfit H).
Qed.

(** X7.  The exceptions a view ends with, all of them.  Under a resolved
    identity, POST /marketplace past the presence check ends with
    [ValueError] when [float] refuses the price text and with
    [IntegrityError] when the price is a NaN; a toggle or delete of a task
    and a delete of a listing end with [OverflowError] when the id of the
    URL does not fit the store's INTEGER.  These requests raise, and no
    other does; in particular [session["user_id"]] never raises [KeyError].
    After an exception the world is as before. *)
Theorem view_raises (r : route) (req : request) (w : world) (e : exn) :
  ((view r req w).1 = inl e ↔
   (∃ uid, acting w uid) ∧
   (r = Marketplace ∧ req_method req = POST ∧ title_and_price req ∧
    (∃ p, form req !! "price" = Some p ∧
       (e = ValueError ∧ float p = None ∨
        e = IntegrityError ∧ float p = Some NaN)) ∨
    e = OverflowError ∧
    ∃ id, ¬ fits_integer id ∧
          (r = ToggleTask id ∨ r = DeleteTask id ∨ r = DeleteListing id))) ∧
  ((view r req w).1 = inl e → (view r req w).2 = w).
Proof.
  split; [split|].
  - intros H. by apply view_raises_only in H as (_ & ? & ?).
  - intros [Hact H]. by apply view_raises_when.
  - intros H. by apply view_raises_only in H as (? & _).
Qed.

Lemma view_raises_witness :
  (view Marketplace bad_price as_alice).2 = as_alice ∧
  (view (ToggleTask (2 ^ 63)) (post [] 50) as_bob).1 = inl OverflowError.
Proof.
  split.
  - apply (proj2 (view_raises Marketplace bad_price as_alice ValueError)).
    vm_compute. reflexivity.
  - apply (proj1 (view_raises (ToggleTask (2 ^ 63)) (post [] 50) as_bob
                    OverflowError)).
    split.
    + exists 2. split; [reflexivity|]. eexists. reflexivity.
    + right. split; [reflexivity|]. exists (2 ^ 63).
      split; [unfold fits_integer; lia|by left].
Defined.

(** X8.  The identity of the session is set by a successful login and
    dropped by logout, and by nothing else: when a request changes
    [session["user_id"]], it is a POST /login whose lookup found the user
    now named, or a logout that leaves no name. *)
Theorem session_identity_changes (r : route) (req : request) (w : world) :
  user_id (sess (serve r req w).2) ≠ user_id (sess w) →
  (r = Login ∧ req_method req = POST ∧
   ∃ u, select_user_by_credentials (strip (form_get req "email"))
          (hash_password (form_get req "password")) (users (db w)) = Some u ∧
        user_id (sess (serve r req w).2) = Some (u_id u)) ∨
  (r = Logout ∧ user_id (sess (serve r req w).2) = None).
Proof.
  unfold serve. case_decide as Hm; [|done].
  destruct (view r req w) as [o w'] eqn:Hv. simpl.
  replace w' with (view r req w).2 by by rewrite Hv.
  clear Hv Hm o w'. revert r.
  intros r. all_routes r w; simplify_eq; try done.
  all: intros _; first [by right|left].
  all: split; [done|]; split; [done|]; by eexists.
Qed.

Lemma session_identity_changes_witness :
  user_id (sess (serve Logout (get 80) as_alice).2) = None.
Proof.
  destruct (session_identity_changes Logout (get 80) as_alice)
    as [(H & _)|[_ H]]; [compute_done|discriminate H|exact H].
Defined.

(** X9.  Logout answers with the redirect to the home page, keeps the store,
    and leaves a session with no identity and the logout notice as its only
    notice; each guarded route requested next is refused with the redirect
    to the login page, the store still as it was. *)
Theorem logout_then_guarded (req req' : request) (w : world) (id : Z) :
  logout req w =
    (inr (Redirect "index"),
     World (db w)
       (Session None [("info", py "Tizimdan muvaffaqiyatli chiqdingiz.")])) ∧
  Forall (λ h : handler,
            h req' (logout req w).2 = denied (logout req w).2 ∧
            db (h req' (logout req w).2).2 = db w)
    [marketplace; delete_listing id; dashboard; add_task; toggle_task id;
     delete_task id].
Proof.
  split; [reflexivity|].
  repeat constructor; try (by apply login_required_denied);
    by rewrite login_required_denied.
Qed.

(** ** Registration, login and the dashboard together *)

Lemma filter_none {A} (P : A → Prop) `{!∀ x, Decision (P x)} (l : list A) :
  Forall (λ x, ¬ P x) l → filter P l = [].
Proof.
  induction 1 as [|x l Hx _ IH]; [done|]. by rewrite filter_cons_False.
Qed.

Lemma dashboard_run (req : request) (w : world) (u : user) :
  (current_user w).1 = inr (Some u) →
  dashboard req w =
  (inr (Render "dashboard.html"
          (Tasks (select_tasks_of (u_id u) (tasks (db w)))
             (length (filter (λ t, t_done t ≠ 0)
                        (select_tasks_of (u_id u) (tasks (db w))))))
          (Some u)), w).
Proof.
  intros H. unfold dashboard. authenticated H.
  unfold render_template, inject_user, mbind, M_bind, mret, M_ret.
  rewrite current_user_eq, H. reflexivity.
Qed.

Lemma register_success (req : request) (w : world) :
  (register req w).1 = inr (Redirect "login") →
  req_method req = POST ∧ identity w = None ∧ valid_registration req ∧
  ∃ t, insert_user (strip (form_get req "username"))
         (strip (form_get req "email"))
         (hash_password (form_get req "password")) (now req)
         (users (db w)) = inr t ∧
       (register req w).2 =
       flashed (World (with_users (db w) t) (sess w)) "success"
         (py "Ro'yxatdan muvaffaqiyatli o'tdingiz! Iltimos, tizimga kiring.").
Proof.
  intros Hr.
  destruct (decide (req_method req = POST ∧ identity w = None ∧
                    valid_registration req)) as [(Hm & Hid & Hv)|Hn].
  2: { by destruct (register_refused _ _ Hn). }
  repeat (split; [done|]).
  rewrite (register_run _ _ Hm Hid Hv) in Hr |- *.
  destruct (insert_user _ _ _ _ _) as [e|t]; [done|]. by exists t.
Qed.

(** X10.  Register, then log in with the same email (up to surrounding
    blanks) and the same password, then open the dashboard: the login
    succeeds as the user just created and the dashboard shows no task.  (The
    store has every task owned by a user, and the session starts without
    identity.) *)
Theorem register_login_dashboard (w : world) (req req' req'' : request) :
  refs_ok (db w) →
  user_id (sess w) = None →
  (register req w).1 = inr (Redirect "login") →
  req_method req' = POST →
  strip (form_get req' "email") = strip (form_get req "email") →
  form_get req' "password" = form_get req "password" →
  let w1 := (register req w).2 in
  let w2 := (login req' w1).2 in
  let u := User (next_rowid u_id (users (db w)))
                (strip (form_get req "username"))
                (strip (form_get req "email"))
                (hash_password (form_get req "password")) (now req) in
  rows (users (db w1)) = rows (users (db w)) ++ [u] ∧
  (login req' w1).1 = inr (Redirect "dashboard") ∧
  user_id (sess w2) = Some (u_id u) ∧
  (current_user w2).1 = inr (Some u) ∧
  dashboard req'' w2 =
    (inr (Render "dashboard.html" (Tasks [] 0) (Some u)), w2).
Proof.
  intros [Hrefs _] Hs Hr Hm He Hp w1 w2 u.
  destruct (register_success _ _ Hr) as (_ & _ & _ & t & Hins & Hw1).
  apply insert_user_inr in Hins as (-> & _ & Hfresh). fold u in Hw1.
  assert (Hid1 : identity w1 = None).
  { unfold w1. rewrite Hw1. unfold identity. simpl. by rewrite Hs. }
  assert (Hfound : select_user_by_credentials (strip (form_get req' "email"))
            (hash_password (form_get req' "password")) (users (db w1))
          = Some u).
  { unfold w1. rewrite Hw1, He, Hp. unfold select_user_by_credentials. simpl.
    rewrite filter_app, filter_none.
    - by rewrite filter_cons_True.
    - apply Forall_forall. intros x Hx [Hxe _]. apply Hfresh.
      rewrite <- Hxe. by apply list_elem_of_fmap_2. }
  assert (Hw2 : w2 = World (db w1)
            (Session (Some (u_id u))
               (flashes (sess w1) ++
                [("success", py "Xush kelibsiz, " ++ u_username u ++ py "!")]))).
  { unfold w2. by rewrite (login_run _ _ Hm Hid1), Hfound. }
  assert (Hcur : (current_user w2).1 = inr (Some u)).
  { rewrite current_user_identity, Hw2. unfold identity. simpl. do 2 f_equal.
    unfold w1. rewrite Hw1. unfold select_user_by_id. simpl.
    rewrite filter_app, filter_none.
    - by rewrite filter_cons_True.
    - apply Forall_forall. intros x Hx Hk.
      pose proof (next_rowid_bound u_id (users (db w)) x Hx). lia. }
  split; [by unfold w1; rewrite Hw1|].
  split; [by rewrite (login_run _ _ Hm Hid1), Hfound|].
  split; [by rewrite Hw2|]. split; [done|].
  rewrite (dashboard_run _ _ _ Hcur).
  assert (Hts : select_tasks_of (u_id u) (tasks (db w2)) = []).
  { unfold select_tasks_of. rewrite filter_none; [done|].
    rewrite Hw2. unfold w1. rewrite Hw1. simpl.
    eapply Forall_impl; [exact Hrefs|]. intros x Hx Hk. simpl in Hx.
    apply (next_rowid_fresh u_id (users (db w))). by rewrite <- Hk. }
  by rewrite Hts.
Qed.

Lemma register_login_dashboard_witness :
  dashboard (get 70) (login carol (register carol anonymous).2).2 =
  (inr (Render "dashboard.html" (Tasks [] 0)
          (Some (User 3 (py "carol") (py "c@x.com")
                   (hash_password (py "secret1")) 50))),
   (login carol (register carol anonymous).2).2).
Proof.
  refine (proj2 (proj2 (proj2 (proj2
    (register_login_dashboard anonymous carol carol (get 70) _ _ _ _ _ _))))).
  - exact (proj1 (proj2 demo_store_ok)).
  - reflexivity.
  - vm_compute. reflexivity.
  - reflexivity.
  - reflexivity.
  - reflexivity.
Defined.

(** ** Tasks *)

Lemma add_task_run (req : request) (w : world) (u : user) :
  (current_user w).1 = inr (Some u) →
  add_task req w =
  if truthy (strip (form_get req "title")) then
    (inr (Redirect "dashboard"),
     World (with_tasks (db w)
              (insert_task (u_id u) (strip (form_get req "title")) (now req)
                           (tasks (db w))))
           (sess w))
  else
    (inr (Redirect "dashboard"),
     flashed w "warning" (py "Vazifa matni bo'sh bo'lishi mumkin emas.")).
Proof.
  intros H. unfold add_task. authenticated H.
  destruct (truthy _); simpl; [by rewrite Hs|reflexivity].
Qed.

Lemma current_user_tasks (w : world) (t : table task) :
  (current_user (World (with_tasks (db w) t) (sess w))).1 = (current_user w).1.
Proof. by apply current_user_frame. Qed.

(** X11.  POST /task/add by a logged-in user.  A title that is not blank
    adds one task: the stripped title, the caller as owner, not done, a key
    above every key of the table; nothing is flashed, and the dashboard then
    lists this task beside the former ones, with the same count of done
    tasks.  A blank title adds nothing and flashes the warning.  Both
    redirect to the dashboard. *)
Theorem add_task_appends (w : world) (req req' : request) (u : user) :
  (current_user w).1 = inr (Some u) →
  let title := strip (form_get req "title") in
  let new := Task (next_rowid t_id (tasks (db w))) (u_id u) title 0 (now req) in
  let w' := (add_task req w).2 in
  (add_task req w).1 = inr (Redirect "dashboard") ∧
  (title = [] →
     w' = flashed w "warning" (py "Vazifa matni bo'sh bo'lishi mumkin emas.")) ∧
  (title ≠ [] →
     w' = World (with_tasks (db w)
                   (Table (rows (tasks (db w)) ++ [new]) (t_id new)))
                (sess w) ∧
     Forall (λ t, t_id t < t_id new) (rows (tasks (db w))) ∧
     ∃ ts n ts' n',
       (dashboard req' w).1 =
         inr (Render "dashboard.html" (Tasks ts n) (Some u)) ∧
       (dashboard req' w').1 =
         inr (Render "dashboard.html" (Tasks ts' n') (Some u)) ∧
       ts' ≡ₚ new :: ts ∧ n' = n).
Proof.
  intros H title new w'. subst w' new title.
  rewrite (add_task_run _ _ _ H).
  destruct (strip (form_get req "title")) as [|c s] eqn:Et; simpl.
  { split; [done|]. split; [done|]. intros Hn. by destruct Hn. }
  set (new := Task _ _ _ _ _).
  split; [done|]. split; [done|]. intros _.
  split; [done|]. split.
  { apply Forall_forall. intros t Ht. by apply next_rowid_bound. }
  set (w1 := World _ _).
  assert (H1 : (current_user w1).1 = inr (Some u)).
  { unfold w1. by rewrite current_user_tasks. }
  do 4 eexists. rewrite (dashboard_run _ _ _ H), (dashboard_run _ _ _ H1).
  split; [reflexivity|]. split; [reflexivity|].
  assert (Hp : select_tasks_of (u_id u) (tasks (db w1)) ≡ₚ
               new :: select_tasks_of (u_id u) (tasks (db w))).
  { unfold select_tasks_of. rewrite !merge_sort_Permutation. simpl.
    rewrite filter_app, filter_cons_True by done. simpl.
    by rewrite <- Permutation_cons_append. }
  split; [exact Hp|].
  apply Permutation_length. rewrite Hp.
  by rewrite filter_cons_False by (simpl; lia).
Qed.

Lemma add_task_appends_witness :
  (add_task (post [("title", " Call Bob ")] 70) as_alice).2 =
  World (with_tasks demo_db
           (Table (rows (tasks demo_db) ++ [Task 2 1 (py "Call Bob") 0 70]) 2))
        (sess as_alice).
Proof.
  destruct (add_task_appends as_alice (post [("title", " Call Bob ")] 70)
              (get 80) alice) as (_ & _ & H); [reflexivity|].
  destruct H as [H _]; [compute_done|]. exact H.
Defined.

Lemma filter_delete_unique {A} (key : A → Z) (Q : A → Prop)
    `{!∀ x, Decision (Q x)} (l : list A) (i : nat) (x : A) :
  NoDup (key <$> l) → l !! i = Some x → Q x → (∀ y, Q y → key y = key x) →
  filter (λ y, ¬ Q y) l = delete i l.
Proof.
  intros Hnd Hi Hx Hkey. revert i Hi.
  induction l as [|a l IH]; intros i Hi; [done|].
  rewrite fmap_cons in Hnd. apply NoDup_cons in Hnd as [Ha Hnd].
  destruct i as [|i]; simpl in *.
  - injection Hi as ->. rewrite filter_cons_False by tauto.
    clear IH. induction l as [|b l IH]; [done|].
    rewrite fmap_cons in Ha, Hnd. apply not_elem_of_cons in Ha as [Hab Ha].
    apply NoDup_cons in Hnd as [_ Hnd].
    rewrite filter_cons_True; [by rewrite IH|].
    intros Hb. apply Hab. symmetry. by apply Hkey.
  - rewrite filter_cons_True; [by rewrite (IH Hnd i)|].
    intros Hq. apply Ha. rewrite (Hkey _ Hq).
    apply list_elem_of_fmap_2. by eapply list_elem_of_lookup_2.
Qed.

(** X12.  POST /task/delete by the owner, with the primary key in force:
    the row of that key is taken out, the others keep their order, the
    counter and the other tables and the session stay, and the key is in the
    table no more.  The task is a row of the store, so its key is a value of
    an INTEGER column. *)
Theorem delete_task_owner (w : world) (req : request) (task_id : Z)
    (u : user) (i : nat) (t : task) :
  db_ok (db w) →
  (current_user w).1 = inr (Some u) →
  rows (tasks (db w)) !! i = Some t → fits_integer (t_id t) →
  t_id t = task_id → t_user_id t = u_id u →
  let w' := (delete_task task_id req w).2 in
  (delete_task task_id req w).1 = inr (Redirect "dashboard") ∧
  rows (tasks (db w')) = delete i (rows (tasks (db w))) ∧
  (task_id ∉ t_id <$> rows (tasks (db w'))) ∧
  seq_ (tasks (db w')) = seq_ (tasks (db w)) ∧
  users (db w') = users (db w) ∧
  listings (db w') = listings (db w) ∧
  messages (db w') = messages (db w) ∧
  sess w' = sess w.
Proof.
  intros Hok H Hi Hfit Hk Ho w'. unfold w'. rewrite Hk in Hfit.
  rewrite (delete_task_run _ _ _ _ Hfit H). simpl.
  assert (E : filter (λ r, ¬ (t_id r = task_id ∧ t_user_id r = u_id u))
                     (rows (tasks (db w))) = delete i (rows (tasks (db w)))).
  { apply (filter_delete_unique t_id _ _ i t); [apply Hok|done|done|].
    intros y [Hy _]. congruence. }
  split; [done|]. split; [exact E|]. split; [|done].
  rewrite E. intros (y & Hy & Hin)%list_elem_of_fmap.
  apply list_elem_of_lookup in Hin as [j Hj].
  pose proof (tasks_key _ Hok) as Hnd.
  assert (Hjl : rows (tasks (db w)) !! (if decide (j < i)%nat then j else S j)
                = Some y).
  { rewrite <- Hj. case_decide.
    - by rewrite list_lookup_delete_lt.
    - rewrite list_lookup_delete_ge by lia. done. }
  assert (Hne : (if decide (j < i)%nat then j else S j) ≠ i)
    by (case_decide; lia).
  apply Hne. eapply NoDup_lookup; [exact Hnd| |].
  - rewrite list_lookup_fmap, Hjl. simpl. reflexivity.
  - rewrite list_lookup_fmap, Hi. simpl. congruence.
Qed.

Lemma delete_task_owner_witness :
  rows (tasks (db (delete_task 1 (post [] 60) as_alice).2)) = [].
Proof.
  refine (proj1 (proj2 (delete_task_owner as_alice (post [] 60) 1 alice 0
    (Task 1 1 (py "Write report") 0 30) demo_db_ok _ _ _ _ _)));
    first [reflexivity | compute_done].
Defined.

(** ** Listings and messages *)

(** X13.  POST /marketplace/delete by the owner, with the primary key in
    force: the listing of that key is taken out and nothing else changes,
    but for the notice that is flashed.  The listing is a row of the store,
    so its key is a value of an INTEGER column. *)
Theorem delete_listing_owner (w : world) (req : request) (listing_id : Z)
    (u : user) (i : nat) (l : listing) :
  db_ok (db w) →
  (current_user w).1 = inr (Some u) →
  rows (listings (db w)) !! i = Some l → fits_integer (l_id l) →
  l_id l = listing_id → l_user_id l = u_id u →
  let w' := (delete_listing listing_id req w).2 in
  (delete_listing listing_id req w).1 = inr (Redirect "marketplace") ∧
  rows (listings (db w')) = delete i (rows (listings (db w))) ∧
  (l ∉ rows (listings (db w'))) ∧
  seq_ (listings (db w')) = seq_ (listings (db w)) ∧
  users (db w') = users (db w) ∧
  tasks (db w') = tasks (db w) ∧
  messages (db w') = messages (db w) ∧
  sess w' = Session (user_id (sess w))
                    (flashes (sess w) ++ [("info", py "E'lon o'chirildi.")]).
Proof.
  intros Hok H Hi Hfit Hk Ho w'. unfold w'. rewrite Hk in Hfit.
  rewrite (delete_listing_run _ _ _ _ Hfit H). simpl.
  split; [done|].
  split; [|split; [|done]].
  - apply (filter_delete_unique l_id _ _ i l); [apply Hok|done|done|].
    intros y [Hy _]. congruence.
  - intros [Hl _]%list_elem_of_filter. by apply Hl.
Qed.

Lemma delete_listing_owner_witness :
  rows (listings (db (delete_listing 1 (post [] 60) as_alice).2)) = [].
Proof.
  refine (proj1 (proj2 (delete_listing_owner as_alice (post [] 60) 1 alice 0
    (Listing 1 1 (py "Phone") [] (Finite false 100 0) (py "sell") 40)
    demo_db_ok _ _ _ _ _))); first [reflexivity | compute_done].
Defined.

(** X14.  /contact needs no identity.  A POST whose name, email and message
    are not blank adds one message with the three stripped texts and a key
    above every key of the table, flashes the success notice and redirects
    to the contact page; every other request to it leaves the store as it
    was.  The session identity is never touched. *)
Theorem contact_stores (w : world) (req : request) :
  let name := strip (form_get req "name") in
  let email := strip (form_get req "email") in
  let message := strip (form_get req "message") in
  let new := Message (next_rowid m_id (messages (db w))) name email message
                     (now req) in
  (req_method req = POST ∧ name ≠ [] ∧ email ≠ [] ∧ message ≠ [] →
     contact req w =
     (inr (Redirect "contact"),
      flashed (World (with_messages (db w)
                        (Table (rows (messages (db w)) ++ [new]) (m_id new)))
                     (sess w))
              "success" (py "Xabaringiz muvaffaqiyatli yuborildi!")) ∧
     Forall (λ m, m_id m < m_id new) (rows (messages (db w)))) ∧
  (¬ (req_method req = POST ∧ name ≠ [] ∧ email ≠ [] ∧ message ≠ []) →
     db (contact req w).2 = db w ∧
     ∃ user, (contact req w).1 = inr (Render "contact.html" NoContext user)) ∧
  user_id (sess (contact req w).2) = user_id (sess w).
Proof.
  intros name email message new. subst new name email message.
  unfold contact. cases_of w; simplify_eq.
  all: repeat match goal with
              | H : truthy _ = true |- _ => apply truthy_true in H
              | H : truthy ?s = false |- _ =>
                  assert (s = []) by (by destruct s); clear H
              end.
  all: split;
    [intros (Hm & H1 & H2 & H3);
     first [congruence
           |split; [reflexivity|];
            apply Forall_forall; intros m Hin; by apply next_rowid_bound]
    |split; [|done];
     intros Hn; first [by destruct Hn|split; [done|by eexists]]].
Qed.

Lemma contact_stores_witness :
  rows (messages (db (contact (post [("name", "Ann"); ("email", "ann@x.com");
                                     ("message", " Hello ")] 90)
                              anonymous).2)) =
  [Message 1 (py "Ann") (py "ann@x.com") (py "Hello") 90].
Proof.
  destruct (contact_stores anonymous
              (post [("name", "Ann"); ("email", "ann@x.com");
                     ("message", " Hello ")] 90)) as ([H _] & _).
  - repeat split; compute_done.
  - by rewrite H.
Defined.

(** The join of [select_listings], before it is sorted. *)
Lemma select_listings_perm (d : database) :
  select_listings d ≡ₚ
  l ← rows (listings d);
  u ← filter (λ u, u_id u = l_user_id l) (rows (users d));
  [(l, u_username u)].
Proof. unfold select_listings. apply merge_sort_Permutation. Qed.

Lemma select_listings_elem (d : database) (l : listing) (name : str) :
  (l, name) ∈ select_listings d ↔
  l ∈ rows (listings d) ∧
  ∃ o, o ∈ rows (users d) ∧ u_id o = l_user_id l ∧ u_username o = name.
Proof.
  rewrite select_listings_perm, list_elem_of_bind. split.
  - intros (l' & (o & Ho & Hin)%list_elem_of_bind & Hl').
    apply list_elem_of_singleton in Ho. injection Ho as -> ->.
    apply list_elem_of_filter in Hin as [Hk Hin]. split; [done|]. by exists o.
  - intros (Hl & o & Ho & Hk & Hn). exists l. split; [|done].
    apply list_elem_of_bind. exists o. split.
    + apply list_elem_of_singleton. by rewrite Hn.
    + by apply list_elem_of_filter.
Qed.




(** X16.  POST /marketplace by a logged-in user, with a title that is not
    blank and a price text that [float] reads as a number or an infinity:
    one listing is added, owned by the caller, with the stripped title and
    description, the price read, the submitted type ([sell] when absent)
    and a key above every key of the table; the answer is the redirect to
    the board with the success notice, and the board then shows the listing
    with the caller's username, to every user. *)
Theorem marketplace_creates (w : world) (req : request) (u : user) (p : str)
    (x : real) :
  (current_user w).1 = inr (Some u) →
  req_method req = POST →
  strip (form_get req "title") ≠ [] →
  form req !! "price" = Some p →
  float p = Some x → x ≠ NaN →
  let new := Listing (next_rowid l_id (listings (db w))) (u_id u)
               (strip (form_get req "title"))
               (strip (form_get req "description")) x
               (default (py "sell") (form req !! "listing_type")) (now req) in
  let w' := (marketplace req w).2 in
  marketplace req w =
    (inr (Redirect "marketplace"),
     flashed (World (with_listings (db w)
                       (Table (rows (listings (db w)) ++ [new]) (l_id new)))
                    (sess w))
             "success" (py "E'lon muvaffaqiyatli joylashtirildi!")) ∧
  Forall (λ l, l_id l < l_id new) (rows (listings (db w))) ∧
  (new, u_username u) ∈ select_listings (db w').
Proof.
  intros H Hm Ht Hp Hf Hx new w'.
  assert (Hne : p ≠ []).
  { intros ->. vm_compute in Hf. discriminate. }
  assert (Hrun : marketplace req w =
    (inr (Redirect "marketplace"),
     flashed (World (with_listings (db w)
                       (Table (rows (listings (db w)) ++ [new]) (l_id new)))
                    (sess w))
             "success" (py "E'lon muvaffaqiyatli joylashtirildi!"))).
  { rewrite (marketplace_post _ _ _ _ H Hm Ht Hp Hne), Hf.
    unfold insert_listing. by destruct x. }
  split; [exact Hrun|]. split.
  { apply Forall_forall. intros l Hl. by apply next_rowid_bound. }
  unfold w'. rewrite Hrun. apply select_listings_elem. simpl. split.
  - apply elem_of_app. right. apply list_elem_of_here.
  - exists u. by destruct (current_user_Some _ _ H).
Qed.

Lemma marketplace_creates_witness :
  (Listing 2 1 (py "Lamp") (py "Desk lamp") (Finite false 1250 (-2))
           (py "buy") 60, py "alice") ∈
  select_listings
    (db (marketplace (post [("title", " Lamp "); ("description", "Desk lamp");
                            ("price", "12.50"); ("listing_type", "buy")] 60)
                     as_alice).2).
Proof.
  refine (proj2 (proj2 (marketplace_creates as_alice
    (post [("title", " Lamp "); ("description", "Desk lamp");
           ("price", "12.50"); ("listing_type", "buy")] 60)
    alice (py "12.50") (Finite false 1250 (-2)) _ _ _ _ _ _))).
  - reflexivity.
  - reflexivity.
  - compute_done.
  - reflexivity.
  - vm_compute. reflexivity.
  - discriminate.
Defined.

(** ** The count of done tasks *)

Lemma filter_length_insert {A} (P : A → Prop) `{!∀ x, Decision (P x)}
    (l : list A) (i : nat) (x y : A) :
  l !! i = Some x →
  (length (filter P (<[i:=y]> l)) + (if decide (P x) then 1 else 0) =
   length (filter P l) + (if decide (P y) then 1 else 0))%nat.
Proof.
  revert i. induction l as [|a l IH]; intros i Hi; [done|].
  destruct i as [|i]; simpl in *.
  - injection Hi as ->. rewrite !filter_cons.
    destruct (decide (P x)), (decide (P y)); simpl; lia.
  - specialize (IH i Hi). rewrite !filter_cons.
    destruct (decide (P a)); simpl; lia.
Qed.

Lemma select_tasks_of_length (uid : Z) (t : table task) :
  length (select_tasks_of uid t) =
  length (filter (λ r, t_user_id r = uid) (rows t)).
Proof.
  apply Permutation_length. unfold select_tasks_of.
  by rewrite merge_sort_Permutation.
Qed.

Lemma done_count_rows (uid : Z) (t : table task) :
  length (filter (λ r, t_done r ≠ 0) (select_tasks_of uid t)) =
  length (filter (λ r, t_user_id r = uid ∧ t_done r ≠ 0) (rows t)).
Proof.
  rewrite <- filter_filter_and. apply Permutation_length.
  unfold select_tasks_of. by rewrite merge_sort_Permutation.
Qed.

(** X17.  What a toggle by the owner does to the dashboard, with the primary
    key in force: the number of tasks listed stays, and the count of done
    tasks goes up by one when the task was pending (flag 0) and down by one
    when it was done (flag 1).  The task is a row of the store, so its key
    is a value of an INTEGER column. *)
Theorem toggle_task_done_count (w : world) (req req' : request) (task_id : Z)
    (u : user) (i : nat) (t : task) :
  db_ok (db w) →
  (current_user w).1 = inr (Some u) →
  rows (tasks (db w)) !! i = Some t → fits_integer (t_id t) →
  t_id t = task_id → t_user_id t = u_id u →
  ∃ ts n ts' n',
    (dashboard req' w).1 = inr (Render "dashboard.html" (Tasks ts n) (Some u)) ∧
    (dashboard req' (toggle_task task_id req w).2).1 =
      inr (Render "dashboard.html" (Tasks ts' n') (Some u)) ∧
    length ts' = length ts ∧
    (t_done t = 0 → n' = S n) ∧
    (t_done t = 1 → n = S n').
Proof.
  intros Hok H Hi Hfit Hk Ho. rewrite Hk in Hfit.
  rewrite (toggle_task_run _ _ _ _ Hfit H). simpl.
  set (w1 := World _ _).
  assert (H1 : (current_user w1).1 = inr (Some u)).
  { unfold w1. by rewrite current_user_tasks. }
  do 4 eexists. rewrite (dashboard_run _ _ _ H), (dashboard_run _ _ _ H1).
  split; [reflexivity|]. split; [reflexivity|].
  pose proof (update_task_done_one task_id (u_id u) (tasks (db w)) i t
                (tasks_key _ Hok) Hi (conj Hk Ho)) as E.
  set (t' := Task _ _ _ _ _) in E.
  rewrite !done_count_rows, !select_tasks_of_length. unfold w1. simpl.
  simpl in E. rewrite E.
  pose proof (filter_length_insert (λ r, t_user_id r = u_id u)
                (rows (tasks (db w))) i t t' Hi) as Hlen.
  rewrite !decide_True in Hlen by done.
  pose proof (filter_length_insert
                (λ r, t_user_id r = u_id u ∧ t_done r ≠ 0)
                (rows (tasks (db w))) i t t' Hi) as Hcnt.
  split; [lia|]. split; intros Hd.
  - rewrite decide_False, decide_True in Hcnt; [lia| |].
    + split; [done|]. unfold t'. simpl. lia.
    + intros [_ ?]. done.
  - rewrite decide_True, decide_False in Hcnt; [lia| |].
    + intros [_ Hn]. unfold t' in Hn. simpl in Hn. lia.
    + split; [done|lia].
Qed.

Lemma toggle_task_done_count_witness :
  ∃ ts n ts' n',
    (dashboard (get 70) as_alice).1 =
      inr (Render "dashboard.html" (Tasks ts n) (Some alice)) ∧
    (dashboard (get 70) (toggle_task 1 (post [] 60) as_alice).2).1 =
      inr (Render "dashboard.html" (Tasks ts' n') (Some alice)) ∧
    n' = S n.
Proof.
  destruct (toggle_task_done_count as_alice (post [] 60) (get 70) 1 alice 0
    (Task 1 1 (py "Write report") 0 30) demo_db_ok)
    as (ts & n & ts' & n' & H1 & H2 & _ & H3 & _);
    try first [reflexivity | compute_done].
  exists ts, n, ts', n'. split; [exact H1|]. split; [exact H2|].
  apply H3. reflexivity.
Defined.

(** ** A failed login *)

(** X18.  A failed login tells nothing about its cause: for a visitor
    without identity, two POSTs to /login whose lookups both fail, be it for
    an unknown email or for a wrong password, get the same response and
    leave the same world. *)
Theorem login_failure_uniform (w : world) (req1 req2 : request) :
  (current_user w).1 = inr None →
  req_method req1 = POST → req_method req2 = POST →
  select_user_by_credentials (strip (form_get req1 "email"))
    (hash_password (form_get req1 "password")) (users (db w)) = None →
  select_user_by_credentials (strip (form_get req2 "email"))
    (hash_password (form_get req2 "password")) (users (db w)) = None →
  login req1 w = login req2 w ∧
  login req1 w =
    (inr (Render "login.html" NoContext None),
     flashed w "danger" (py "Email yoki parol noto'g'ri.")).
Proof.
  intros Hid Hm1 Hm2 Hf1 Hf2. rewrite current_user_identity in Hid.
  injection Hid as Hid.
  by rewrite (login_run _ _ Hm1 Hid), (login_run _ _ Hm2 Hid), Hf1, Hf2.
Qed.

Lemma login_failure_uniform_witness :
  login alice_wrong_password anonymous =
  login (post [("email", "nobody@x.com"); ("password", "secret1")] 20)
        anonymous.
Proof.
  refine (proj1 (login_failure_uniform anonymous alice_wrong_password
    (post [("email", "nobody@x.com"); ("password", "secret1")] 20)
    _ _ _ _ _)); try reflexivity; vm_compute; reflexivity.
Defined.

(** ** Ids that fit the store's INTEGER *)

(** X19.  A toggle or delete of a task, or a delete of a listing, with an id
    that fits the store's INTEGER, by an authenticated user who does not own
    a row with that id (or when no such row exists): the store is left as it
    was, and the answer is the one of every other such request, the
    successful one included: same redirect, same notices. *)
Theorem foreign_row_untouched (w : world) (req : request) (id : Z)
    (u : user) :
  (current_user w).1 = inr (Some u) → fits_integer id →
  (Forall (λ r, ¬ (t_id r = id ∧ t_user_id r = u_id u))
          (rows (tasks (db w))) →
     toggle_task id req w = (inr (Redirect "dashboard"), w) ∧
     delete_task id req w = (inr (Redirect "dashboard"), w)) ∧
  (Forall (λ r, ¬ (l_id r = id ∧ l_user_id r = u_id u))
          (rows (listings (db w))) →
     (delete_listing id req w).1 = inr (Redirect "marketplace") ∧
     db (delete_listing id req w).2 = db w) ∧
  (∀ w' req' id' u', (current_user w').1 = inr (Some u') →
     fits_integer id' →
     reply (toggle_task id) req w = reply (toggle_task id') req' w' ∧
     reply (delete_task id) req w = reply (delete_task id') req' w' ∧
     reply (delete_listing id) req w = reply (delete_listing id') req' w').
Proof.
  intros H Hfit. split; [|split].
  - intros Hmiss.
    rewrite (toggle_task_run _ _ _ _ Hfit H), (delete_task_run _ _ _ _ Hfit H).
    rewrite update_task_done_miss, delete_task_row_miss by done.
    rewrite with_tasks_same. by destruct w.
  - intros Hmiss. rewrite (delete_listing_run _ _ _ _ Hfit H). simpl.
    rewrite delete_listing_row_miss by done. by rewrite with_listings_same.
  - intros w' req' id' u' H' Hfit'. unfold reply.
    rewrite !(toggle_task_run _ _ _ _ Hfit H).
    rewrite !(toggle_task_run _ _ _ _ Hfit' H').
    rewrite !(delete_task_run _ _ _ _ Hfit H).
    rewrite !(delete_task_run _ _ _ _ Hfit' H').
    rewrite !(delete_listing_run _ _ _ _ Hfit H).
    rewrite !(delete_listing_run _ _ _ _ Hfit' H').
    simpl. by rewrite !drop_all, !drop_app_length.
Qed.

Lemma foreign_row_untouched_witness :
  toggle_task 1 (post [] 50) as_bob = (inr (Redirect "dashboard"), as_bob) ∧
  delete_task 1 (post [] 50) as_bob = (inr (Redirect "dashboard"), as_bob) ∧
  db (delete_listing 1 (post [] 50) as_bob).2 = demo_db ∧
  reply (delete_listing 1) (post [] 50) as_bob =
  reply (delete_listing 1) (post [] 60) as_alice.
Proof.
  destruct (foreign_row_untouched as_bob (post [] 50) 1 bob) as (Ht & Hl & Hr);
    [reflexivity|compute_done|].
  destruct Ht as [Htoggle Hdelete].
  { repeat constructor. simpl. intros [_ ?]. discriminate. }
  destruct Hl as [_ Hdb].
  { repeat constructor. simpl. intros [_ ?]. discriminate. }
  destruct (Hr as_alice (post [] 60) 1 alice) as (_ & _ & Hreply);
    [reflexivity|compute_done|].
  auto.
Defined.

Lemma within_mono {A} (key : A → Z) (n m : Z) (t : table A) :
  n ≤ m → within key n t → within key m t.
Proof. intros Hnm [Hs Hk]. split; [lia|done]. Qed.

Lemma next_rowid_within {A} (key : A → Z) (n : Z) (t : table A) :
  within key n t → next_rowid key t = 1 + seq_ t.
Proof.
  intros [_ Hk]. unfold next_rowid. f_equal.
  destruct t as [rs s]. simpl in *.
  induction Hk as [|r rs Hr _ IH]; [done|].
  rewrite fmap_cons. simpl. rewrite IH. lia.
Qed.

Lemma within_insert {A} (key : A → Z) (n : Z) (t : table A) (x : A) :
  within key n t → key x = next_rowid key t →
  within key (n + 1) (Table (rows t ++ [x]) (next_rowid key t)).
Proof.
  intros Hw Hx. rewrite (next_rowid_within key n t Hw) in *.
  destruct Hw as [Hs Hk]. split; simpl; [lia|].
  apply Forall_app. split.
  - eapply Forall_impl; [exact Hk|]. intros y. simpl. lia.
  - constructor; [lia|done].
Qed.

Lemma within_filter {A} (key : A → Z) (n : Z) (t : table A) (P : A → Prop)
    `{!∀ x, Decision (P x)} :
  within key n t → within key n (Table (filter P (rows t)) (seq_ t)).
Proof.
  intros [Hs Hk]. split; [done|]. simpl.
  apply Forall_forall. intros x [_ Hx]%list_elem_of_filter.
  by apply (proj1 (Forall_forall _ _) Hk).
Qed.

Lemma within_toggle (n task_id uid : Z) (t : table task) :
  within t_id n t → within t_id n (update_task_done task_id uid t).
Proof.
  intros [Hs Hk]. split; [done|]. simpl.
  apply Forall_fmap. eapply Forall_impl; [exact Hk|].
  intros r. unfold toggle_row. simpl. by case_decide.
Qed.

Lemma effect_keys_within (w : world) (d : database) (n : Z) :
  effect w d → keys_within n (db w) → keys_within (n + 1) d.
Proof.
  assert (Hn : n ≤ n + 1) by lia.
  intros He (Hu & Ht & Hl & Hm).
  pose proof (within_mono _ _ _ _ Hn Hu).
  pose proof (within_mono _ _ _ _ Hn Ht).
  pose proof (within_mono _ _ _ _ Hn Hl).
  pose proof (within_mono _ _ _ _ Hn Hm).
  destruct He as
    [|?????? Hins|????|??????? Hact Hins|?? Hact|??? Hact|?? Hact|?? Hact];
    try done.
  - apply insert_user_inr in Hins as [-> _].
    split; [|done]. simpl. by apply within_insert.
  - repeat (split; [done|]). simpl. by apply within_insert.
  - apply insert_listing_inr in Hins as [-> _].
    split; [done|]. split; [done|]. split; [|done]. simpl.
    by apply within_insert.
  - split; [done|]. split; [done|]. split; [|done]. simpl.
    by apply within_filter.
  - split; [done|]. split; [|done]. simpl. by apply within_insert.
  - split; [done|]. split; [|done]. simpl. by apply within_toggle.
  - split; [done|]. split; [|done]. simpl. by apply within_filter.
Qed.

Lemma run_keys_within (h : list event) (s : session) :
  keys_within (Z.of_nat (length h)) (db (run h (World init_db s))).
Proof.
  induction h as [|e h IH] using rev_ind.
  - repeat split; simpl; done || constructor.
  - rewrite run_snoc, length_app. simpl.
    replace (Z.of_nat (length h + 1)) with (Z.of_nat (length h) + 1) by lia.
    eapply effect_keys_within; [apply step_effect|exact IH].
Qed.

Lemma within_fits {A} (key : A → Z) (n : Z) (t : table A) :
  n < 2 ^ 63 → within key n t → Forall (λ r, fits_integer (key r)) (rows t).
Proof.
  intros Hn [Hs Hk]. eapply Forall_impl; [exact Hk|].
  intros r. unfold fits_integer. simpl. lia.
Qed.

(** X20.  In the store reached from the fresh one by a history of fewer
    than 2^63 events, every key fits the store's INTEGER, and so does the
    key of the acting user: each event hands out at most one key per table,
    the next after the counter. *)
Theorem keys_fit_integer (h : list event) (s : session) :
  let d := db (run h (World init_db s)) in
  Z.of_nat (length h) < 2 ^ 63 →
  keys_within (Z.of_nat (length h)) d ∧
  Forall (λ u, fits_integer (u_id u)) (rows (users d)) ∧
  Forall (λ t, fits_integer (t_id t)) (rows (tasks d)) ∧
  Forall (λ l, fits_integer (l_id l)) (rows (listings d)) ∧
  Forall (λ m, fits_integer (m_id m)) (rows (messages d)) ∧
  (∀ uid, acting (run h (World init_db s)) uid → fits_integer uid).
Proof.
  intros d Hn. pose proof (run_keys_within h s) as Hall.
  destruct Hall as (Hu & Ht & Hl & Hm). fold d in Hu, Ht, Hl, Hm.
  pose proof (within_fits _ _ _ Hn Hu) as Hfu.
  split; [done|].
  split; [done|]. split; [by eapply within_fits|].
  split; [by eapply within_fits|]. split; [by eapply within_fits|].
  intros uid [_ [u Hsel]]. apply select_user_by_id_Some in Hsel as [Hin <-].
  by apply (proj1 (Forall_forall _ _) Hfu).
Qed.

Lemma keys_fit_integer_witness :
  Forall (λ u, fits_integer (u_id u))
    (rows (users (db (run [Serve Register carol; Serve Login alice_login]
                          world0)))).
Proof.
  refine (proj1 (proj2 (keys_fit_integer
    [Serve Register carol; Serve Login alice_login] (Session None []) _))).
  simpl. lia.
Defined.
